(** * The ESLint builder of angular-eslint: option resolution and lint run

    A shallow embedding of
    [packages/builder/src/utils/eslint-utils.ts] (the configuration resolver,
    [resolveAndInstantiateESLint]) and of the builder handler that drives one
    lint run ([createBuilder (async (options, context) => ...)]), followed by
    the properties of the specification that concern them.

    What the code obtains from its collaborators -- the [eslint] module, the
    file system, Node's [path] module, the builder context -- is a field of
    the environment [Env]; what it does to them is an [event] of the trace
    that every computation returns next to its result. *)

From Stdlib Require Import ZArith QArith Ascii.
From stdpp Require Import base strings gmap list pretty.

Local Open Scope Z_scope.
Local Open Scope stdpp_scope.

(** ** JavaScript values *)

Module JS.

(** A property that may hold [undefined], [null] or a value of type [A]:
    the fields of the options bag, which the callers (and the tests) fill
    only in part. *)
Inductive opt (A : Type) : Type :=
| Undefined
| Null
| Val (a : A).
Arguments Undefined {A}.
Arguments Null {A}.
Arguments Val {A} a.

(** The values stored in the options object handed to the ESLint
    constructor. *)
Inductive value : Type :=
| VUndefined
| VBool (b : bool)
| VString (s : string)
| VStrings (l : list string).

#[global] Instance value_eq_dec : EqDecision value.
Proof. solve_decision. Defined.

(** Truthiness ([!!x], [x || y], [if (x)]), per type of [x]. *)
Class Truthy (A : Type) := truthy : A -> bool.

#[global] Instance truthy_bool : Truthy bool := fun b => b.
#[global] Instance truthy_string : Truthy string :=
  fun s => match s with EmptyString => false | String _ _ => true end.
(** Arrays are objects: always truthy, the empty one too. *)
#[global] Instance truthy_list {A} : Truthy (list A) := fun _ => true.
(** [0] is falsy, every other integer truthy. *)
#[global] Instance truthy_Z : Truthy Z := fun z => negb (z =? 0).
#[global] Instance truthy_opt {A} `{Truthy A} : Truthy (opt A) :=
  fun o => match o with Val a => truthy a | _ => false end.
#[global] Instance truthy_option {A} `{Truthy A} : Truthy (option A) :=
  fun o => match o with Some a => truthy a | None => false end.

(** [typeof x !== 'undefined'] and [x !== undefined]. *)
Definition defined {A} (o : opt A) : bool :=
  match o with Undefined => false | _ => true end.

(** [x || undefined] for a string property [x]. *)
Definition string_or_undefined (o : opt string) : value :=
  match o with
  | Val s => if truthy s then VString s else VUndefined
  | _ => VUndefined
  end.

(** [String.prototype.endsWith]: [suffix] is [s] or ends a tail of [s]. *)
Fixpoint endsWith (s suffix : string) : bool :=
  bool_decide (s = suffix)
  || match s with
     | EmptyString => false
     | String _ s' => endsWith s' suffix
     end.

(** [String.prototype.includes]. *)
Fixpoint includes (s sub : string) : bool :=
  String.prefix sub s
  || match s with
     | EmptyString => false
     | String _ s' => includes s' sub
     end.

(** [Array.prototype.join]. *)
Definition join (sep : string) (l : list string) : string :=
  String.concat sep l.

(** [s.split('.')]: the pieces between the dots; a string without a dot
    (the empty one too) is one piece. *)
Fixpoint split_dot_aux (cur : string) (s : string) : list string :=
  match s with
  | EmptyString => [String.rev cur]
  | String c s' =>
      if bool_decide (c = "."%char) then String.rev cur :: split_dot_aux EmptyString s'
      else split_dot_aux (String c cur) s'
  end.
Definition split_dot (s : string) : list string := split_dot_aux EmptyString s.

(** The numbers [Number(s)] can be. *)
Inductive number : Type :=
| NaN
| NegInfinity
| PosInfinity
| Fin (q : Q).

(** [a < k] and [a === k] for an integer constant [k]; both are false on
    [NaN]. *)
Definition lt (a : number) (k : Z) : bool :=
  match a with
  | NaN | PosInfinity => false
  | NegInfinity => true
  | Fin q => negb (Qle_bool (inject_Z k) q)
  end.
Definition strict_eq (a : number) (k : Z) : bool :=
  match a with
  | Fin q => Qeq_bool q (inject_Z k)
  | _ => false
  end.

(** Decimal digits. *)
Definition digit (c : ascii) : option Z :=
  let n := Z.of_nat (nat_of_ascii c) in
  if (48 <=? n) && (n <=? 57) then Some (n - 48) else None.

Fixpoint digits_value (acc : Z) (s : string) : option Z :=
  match s with
  | EmptyString => Some acc
  | String c s' =>
      match digit c with
      | Some d => digits_value (10 * acc + d) s'
      | None => None
      end
  end.

(** The file name of a path written with slashes: what follows the last
    slash. *)
Fixpoint hasSlash (s : string) : bool :=
  match s with
  | EmptyString => false
  | String c s' => bool_decide (c = "/"%char) || hasSlash s'
  end.
Fixpoint fileName (path : string) : string :=
  match path with
  | EmptyString => EmptyString
  | String c s' =>
      if hasSlash s' then fileName s'
      else if bool_decide (c = "/"%char) then s' else path
  end.

End JS.
Export JS (Undefined, Null, Val, VUndefined, VBool, VString, VStrings, truthy).

(** A double quote and a line feed, for the messages that hold them. *)
Definition dq : string := String (ascii_of_nat 34) EmptyString.
Definition nl : string := String (ascii_of_nat 10) EmptyString.

(** ** Thrown values, events and the monad of the asynchronous code *)

(** What a [catch] receives: an [Error] with its message, or something that
    is not an [Error]. *)
Inductive exn : Type :=
| Error (message : string)
| Thrown.

(** [ESLint.LintResult] and its messages. *)
Record LintMessage := {
  severity : Z;
  ruleId : JS.opt string;
  message : string;
}.

Record LintResult := {
  filePath : string;
  messages : list LintMessage;
  errorCount : Z;
  warningCount : Z;
}.

(** The options object of the ESLint constructor. *)
Abbreviation ESLintOptions := (gmap string JS.value).

(** What a run does, in order. *)
Inductive event : Type :=
| Chdir (dir : string)
| ConsoleInfo (text : string)
| ConsoleWarn (text : string)
| ConsoleError (text : string)
| NewESLint (eslintOptions : ESLintOptions)
| LintFiles (patterns : list string)
| IsPathIgnored (pattern : string)
| GetProjectMetadata (projectName : string)
| OutputFixes (results : list LintResult)
| LoadFormatter (format : JS.opt string)
| Format (results : list LintResult)
| MkdirSync (path : string)
| WriteFileSync (path : string) (data : string).

(** A computation returns a value or throws, and leaves a trace. *)
Definition M (A : Type) : Type := (exn + A) * list event.

Definition ret {A} (a : A) : M A := (inr a, []).
Definition throw {A} (e : exn) : M A := (inl e, []).
Definition emit (ev : event) : M unit := (inr tt, [ev]).
Definition bind {A B} (m : M A) (f : A -> M B) : M B :=
  match m with
  | (inl e, t) => (inl e, t)
  | (inr a, t) => let '(r, t') := f a in (r, t ++ t')
  end.
(** [try { m } catch (err) { h err }]. *)
Definition try_catch {A} (m : M A) (h : exn -> M A) : M A :=
  match m with
  | (inl e, t) => let '(r, t') := h e in (r, t ++ t')
  | (inr a, t) => (inr a, t)
  end.
(** The outcome of a call into a collaborator, after the event. *)
Definition call {A} (ev : event) (r : exn + A) : M A := (r, [ev]).

Declare Scope M_scope.
Delimit Scope M_scope with M.
Notation "'let*' x := m 'in' k" := (bind m (fun x => k))
  (at level 10, x pattern, m at level 100, k at level 200) : M_scope.
Notation "m ;; k" := (bind m (fun _ => k))
  (at level 100, k at level 200, right associativity) : M_scope.
Local Open Scope M_scope.
Definition when (b : bool) (m : M unit) : M unit := if b then m else ret tt.

(** ** The options bag, the collaborators and the environment *)

(** Modelled from the spec: the options bag, [Schema], whose declaration
    ([../schema]) is not among the sources. It has the fields that the
    specification lists and the code reads. [maxWarnings] is a number and
    [lintFilePatterns] an array in every use; the others are tested for
    [undefined] or for truthiness, and the unit tests leave them out at
    will. *)
Record Schema := {
  format : JS.opt string;
  lintFilePatterns : list string;
  force : JS.opt bool;
  quiet : JS.opt bool;
  maxWarnings : Z;
  fix_ : JS.opt bool;  (* [fix], a keyword of Rocq *)
  silent : JS.opt bool;
  cache : JS.opt bool;
  noEslintrc : JS.opt bool;
  outputFile : JS.opt string;
  cacheLocation : JS.opt string;
  eslintConfig : JS.opt string;
  ignorePath : JS.opt string;
  cacheStrategy : JS.opt string;
  rulesdir : JS.opt (list string);
  resolvePluginsRelativeTo : JS.opt string;
  reportUnusedDisableDirectives : JS.opt string;
  useEslintrc : JS.opt bool;
  noConfigLookup : JS.opt bool;
  stats : JS.opt bool;
}.

(** [{} as any], the bag of the tests with every field left out. *)
Definition emptyOptions : Schema := {|
  format := Undefined; lintFilePatterns := []; force := Undefined;
  quiet := Undefined; maxWarnings := -1; fix_ := Undefined;
  silent := Undefined; cache := Undefined; noEslintrc := Undefined;
  outputFile := Undefined; cacheLocation := Undefined;
  eslintConfig := Undefined; ignorePath := Undefined;
  cacheStrategy := Undefined; rulesdir := Undefined;
  resolvePluginsRelativeTo := Undefined;
  reportUnusedDisableDirectives := Undefined; useEslintrc := Undefined;
  noConfigLookup := Undefined; stats := Undefined;
|}.

(** [options.cacheLocation = v]. *)
Definition set_cacheLocation (v : JS.opt string) (o : Schema) : Schema := {|
  format := format o; lintFilePatterns := lintFilePatterns o;
  force := force o; quiet := quiet o; maxWarnings := maxWarnings o;
  fix_ := fix_ o; silent := silent o; cache := cache o;
  noEslintrc := noEslintrc o; outputFile := outputFile o;
  cacheLocation := v;
  eslintConfig := eslintConfig o; ignorePath := ignorePath o;
  cacheStrategy := cacheStrategy o; rulesdir := rulesdir o;
  resolvePluginsRelativeTo := resolvePluginsRelativeTo o;
  reportUnusedDisableDirectives := reportUnusedDisableDirectives o;
  useEslintrc := useEslintrc o; noConfigLookup := noConfigLookup o;
  stats := stats o;
|}.

(** A formatter, as [loadFormatter] returns it. *)
Record Formatter := {
  formatResults : list LintResult -> string;
}.

(** An engine session: an instance of the ESLint class. [lintFiles] and
    [loadFormatter] may throw. [isPathIgnored] is taken to return, and so
    are the constructor, the formatter, [outputFixes] and the calls into
    [fs] and [process]: the handler has no [catch] of its own for them, and
    whatever they threw would end in the top-level [catch] like any other
    error. *)
Record ESLintInstance := {
  lintFiles : list string -> exn + list LintResult;
  isPathIgnored : string -> bool;
  loadFormatter : JS.opt string -> exn + Formatter;
}.

(** The ESLint class: its static [version] and its constructor. *)
Record ESLintClass := {
  version : option string;
  construct : ESLintOptions -> ESLintInstance;
}.

(** The [eslint] module: [loadESLint] where the version has it (it may
    throw), and the [ESLint] export. *)
Record ESLintModule := {
  loadESLint : option (bool -> option ESLintClass);
  ESLint_export : ESLintClass;
}.

(** The builder context. *)
Record BuilderContext := {
  workspaceRoot : string;
  target_project : option string;
  projectMetadata_root : string -> JS.opt string;
}.

(** The process environment of a run. [None] stands for a module that
    cannot be loaded. *)
Record Env := {
  import_eslint : option ESLintModule;
  require_FlatESLint : option ESLintClass;
  existsSync : string -> bool;
  path_join : string -> string -> string;
  path_resolve : string -> string -> string;
  path_dirname : string -> string;
  JSON_stringify : string -> string;
  Number_other : string -> JS.number;
}.

(** [Number(s)] on a piece of a version string: a non-empty string of
    decimal digits is the integer it writes (the comparisons with 6 and 7
    below are the same on the double nearest to it); the conversion of every
    other string (signs, exponents, other radices, white space) is the
    environment's. *)
Definition Number (env : Env) (s : string) : JS.number :=
  match s with
  | EmptyString => Number_other env s
  | String _ _ =>
      match JS.digits_value 0 s with
      | Some z => JS.Fin (inject_Z z)
      | None => Number_other env s
      end
  end.

(** ** eslint-utils.ts *)

Definition supportedFlatConfigNames : list string := [
  "eslint.config.js";
  "eslint.config.mjs";
  "eslint.config.cjs";
  "eslint.config.ts";
  "eslint.config.mts";
  "eslint.config.cts"
].

Definition unableToFindESLint : string :=
  "Unable to find ESLint. Ensure ESLint is installed.".

Definition resolveESLintClass (env : Env) (useFlatConfig : bool) : M ESLintClass :=
  try_catch
    (match import_eslint env with
     | None => throw Thrown
     | Some eslint =>
         match loadESLint eslint with
         | Some load =>
             match load useFlatConfig with
             | Some cls => ret cls
             | None => throw Thrown
             end
         | None =>
             if negb useFlatConfig then ret (ESLint_export eslint)
             else
               match require_FlatESLint env with
               | Some FlatESLint => ret FlatESLint
               | None => throw Thrown
               end
         end
     end)
    (fun _ => throw (Error unableToFindESLint)).

Definition statsRequiresFlatConfig : string :=
  "The --stats option requires ESLint Flat Config".

Definition flatConfigNameMessage : string :=
  "When using the new Flat Config with ESLint, all configs must be named "
  +:+ JS.join " or " supportedFlatConfigNames
  +:+ ", and .eslintrc files may not be used. See https://eslint.org/docs/latest/use/configure/configuration-files".

Definition useEslintrcMessage : string :=
  "For Flat Config, the `useEslintrc` option is not applicable. See https://eslint.org/docs/latest/use/configure/configuration-files-new".

Definition resolvePluginsRelativeToMessage : string :=
  "For Flat Config, ESLint removed `resolvePluginsRelativeTo` and so it is not supported as an option. See https://eslint.org/docs/latest/use/configure/configuration-files-new".

Definition ignorePathMessage : string :=
  "For Flat Config, ESLint removed `ignorePath` and so it is not supported as an option. See https://eslint.org/docs/latest/use/configure/configuration-files-new".

Definition reportUnusedDisableDirectivesMessage : string :=
  "For Flat Config, ESLint removed `reportUnusedDisableDirectives` and so it is not supported as an option. See https://eslint.org/docs/latest/use/configure/configuration-files-new".

(** [eslintConfigPath] as a property value: the string, or [undefined]. *)
Definition path_value (eslintConfigPath : option string) : JS.value :=
  match eslintConfigPath with
  | Some p => VString p
  | None => VUndefined
  end.

(** [new ESLint(eslintOptions)]. *)
Definition new_ESLint (ESLint : ESLintClass) (eslintOptions : ESLintOptions)
  : M ESLintInstance :=
  call (NewESLint eslintOptions) (inr (construct ESLint eslintOptions)).

Definition resolveAndInstantiateESLint (env : Env)
    (eslintConfigPath : option string) (options : Schema)
    (useFlatConfig : bool) : M (ESLintClass * ESLintInstance) :=
  if truthy (stats options) && negb useFlatConfig
  then throw (Error statsRequiresFlatConfig)
  else
  if useFlatConfig && truthy eslintConfigPath
     && negb (existsb
                (fun name => match eslintConfigPath with
                             | Some p => JS.endsWith p name
                             | None => false
                             end)
                supportedFlatConfigNames)
  then throw (Error flatConfigNameMessage)
  else
  let* ESLint := resolveESLintClass env useFlatConfig in
  let eslintOptions : ESLintOptions :=
    {[ "fix" := VBool (truthy (fix_ options));
       "cache" := VBool (truthy (cache options));
       "cacheLocation" := JS.string_or_undefined (cacheLocation options);
       "cacheStrategy" := JS.string_or_undefined (cacheStrategy options);
       "errorOnUnmatchedPattern" := VBool false ]} in
  let* eslintOptions :=
    if useFlatConfig then
      let eslintOptions := <["stats" := VBool (truthy (stats options))]> eslintOptions in
      if JS.defined (useEslintrc options)
      then throw (Error useEslintrcMessage)
      else
      if JS.defined (resolvePluginsRelativeTo options)
      then throw (Error resolvePluginsRelativeToMessage)
      else
      if JS.defined (ignorePath options)
      then throw (Error ignorePathMessage)
      else
      if truthy (reportUnusedDisableDirectives options)
      then throw (Error reportUnusedDisableDirectivesMessage)
      else
      if JS.defined (noConfigLookup options) then
        let configLookup := negb (truthy (noConfigLookup options)) in
        let overrideConfigFile :=
          match eslintConfigPath with
          | Some p => VString p
          | None => VBool (negb configLookup)
          end in
        let overrideConfigFile :=
          match overrideConfigFile with
          | VBool false => VUndefined
          | v => v
          end in
        ret (<["overrideConfigFile" := overrideConfigFile]> eslintOptions)
      else
        ret (<["overrideConfigFile" := path_value eslintConfigPath]> eslintOptions)
    else
      let eslintOptions := <["overrideConfigFile" := path_value eslintConfigPath]> eslintOptions in
      let eslintOptions :=
        <["rulePaths" := match rulesdir options with
                         | Val l => VStrings l
                         | _ => VStrings []
                         end]> eslintOptions in
      let eslintOptions :=
        <["resolvePluginsRelativeTo" :=
            JS.string_or_undefined (resolvePluginsRelativeTo options)]> eslintOptions in
      let eslintOptions :=
        <["ignorePath" := JS.string_or_undefined (ignorePath options)]> eslintOptions in
      let eslintOptions :=
        <["useEslintrc" := VBool (negb (truthy (noEslintrc options)))]> eslintOptions in
      let eslintOptions :=
        <["reportUnusedDisableDirectives" :=
            JS.string_or_undefined (reportUnusedDisableDirectives options)]> eslintOptions in
      ret eslintOptions
  in
  let* eslint := new_ESLint ESLint eslintOptions in
  ret (ESLint, eslint).

(** ** The builder handler *)

Record BuilderOutput := {
  success : bool;
  error : option string;
}.

Definition resolveESLintConfigPath (env : Env) (projectRoot : string)
  : option string :=
  let rcPath := path_join env projectRoot ".eslintrc.json" in
  if existsSync env rcPath then Some rcPath else
  let jsPath := path_join env projectRoot "eslint.config.js" in
  if existsSync env jsPath then Some jsPath else
  let mjsPath := path_join env projectRoot "eslint.config.mjs" in
  if existsSync env mjsPath then Some mjsPath else
  let cjsPath := path_join env projectRoot "eslint.config.cjs" in
  if existsSync env cjsPath then Some cjsPath else
  None.

Definition versionMessage : string := "ESLint must be version 7.6 or higher.".

Definition typeInformationMarker : string :=
  "You must therefore provide a value for the " +:+ dq
  +:+ "parserOptions.project" +:+ dq
  +:+ " property for @typescript-eslint/parser".

Definition typeInformationMessage (configPath : string) : string :=
  nl +:+ "Error: You have attempted to use a lint rule which requires the full TypeScript type-checker to be available, but you do not have `parserOptions.project` configured to point at your project tsconfig.json files in the relevant TypeScript file "
  +:+ dq +:+ "overrides" +:+ dq +:+ " block of your project ESLint config "
  +:+ configPath +:+ nl +:+ nl
  +:+ "For full guidance on how to resolve this issue, please see https://github.com/angular-eslint/angular-eslint/blob/main/docs/RULES_REQUIRING_TYPE_INFORMATION.md"
  +:+ nl.

Definition allFilesIgnoredMessage (ignoredPatterns : list string) : string :=
  "All files matching the following patterns are ignored:" +:+ nl
  +:+ JS.join nl ignoredPatterns +:+ nl +:+ nl
  +:+ "Please check your '.eslintignore' file.".

Definition nothingToLintMessage : string :=
  "Invalid lint configuration. Nothing to lint. Please check your lint target pattern(s).".

Definition tooManyWarningsMessage (totalWarnings maxWarnings : Z) : string :=
  "Found " +:+ pretty totalWarnings
  +:+ " warnings, which exceeds your configured limit (" +:+ pretty maxWarnings
  +:+ "). Either increase your maxWarnings limit or fix some of the lint warnings.".

(** [version[i]], read only once [version.length] is known to reach it. *)
Definition component (version : list string) (i : nat) : string :=
  nth i version EmptyString.

(** The test of the version gate, on [ESLint?.version?.split('.')]. *)
Definition versionTooOld (env : Env) (version : option (list string)) : bool :=
  match version with
  | None => true
  | Some version =>
      (Z.of_nat (length version) <? 2)
      || JS.lt (Number env (component version 0)) 7
      || (JS.strict_eq (Number env (component version 0)) 7
          && JS.lt (Number env (component version 1)) 6)
  end.

(** [patterns.map(async (pattern) => (await eslint.isPathIgnored(pattern)) ?
    pattern : null)] under [Promise.all]: one call per pattern, started in the
    order of the patterns, the answers in that order. *)
Fixpoint ignoredOrNull (eslint : ESLintInstance) (patterns : list string)
  : M (list (option string)) :=
  match patterns with
  | [] => ret []
  | pattern :: rest =>
      let* ignored := call (IsPathIgnored pattern) (inr (isPathIgnored eslint pattern)) in
      let* others := ignoredOrNull eslint rest in
      ret ((if ignored then Some pattern else None) :: others)
  end.

(** The callback of [lintResults.map], which adds to [totalErrors] and
    [totalWarnings] as it goes; the two totals are threaded through. *)
Definition adjustResult (reportOnlyErrors : bool) (totals : Z * Z)
    (result : LintResult) : (Z * Z) * option LintResult :=
  let '(totalErrors, totalWarnings) := totals in
  let totalErrors := totalErrors + errorCount result in
  let totalWarnings := totalWarnings + warningCount result in
  if truthy (errorCount result)
     || (truthy (warningCount result) && negb reportOnlyErrors)
  then
    let result :=
      if reportOnlyErrors then
        {| filePath := filePath result;
           messages := filter (fun m => severity m = 2) (messages result);
           errorCount := errorCount result;
           warningCount := warningCount result |}
      else result in
    ((totalErrors, totalWarnings), Some result)
  else ((totalErrors, totalWarnings), None).

Fixpoint adjustResults (reportOnlyErrors : bool) (totals : Z * Z)
    (lintResults : list LintResult) : (Z * Z) * list (option LintResult) :=
  match lintResults with
  | [] => (totals, [])
  | result :: rest =>
      let '(totals, r) := adjustResult reportOnlyErrors totals result in
      let '(totals, rs) := adjustResults reportOnlyErrors totals rest in
      (totals, r :: rs)
  end.

(** [.filter(Boolean)] on an array of objects and [null]s. *)
Definition filterBoolean {A} (l : list (option A)) : list A := omap id l.

(** The bindings the handler makes before it resolves the engine:
    [projectName], [printInfo], [eslintConfigPath], the options after
    [options.cacheLocation = ...], and [useFlatConfig]. *)
Definition projectName (context : BuilderContext) : string :=
  default "<???>" (target_project context).

Definition printInfo (options : Schema) : bool :=
  truthy (format options) && negb (truthy (silent options)).

Definition eslintConfigPath (env : Env) (options : Schema)
    (context : BuilderContext) : option string :=
  match eslintConfig options with
  | Val p => if truthy p then Some (path_resolve env (workspaceRoot context) p) else None
  | _ => None
  end.

Definition withCacheLocation (env : Env) (options : Schema)
    (context : BuilderContext) : Schema :=
  set_cacheLocation
    (match cacheLocation options with
     | Val l => if truthy l then Val (path_join env l (projectName context)) else Null
     | _ => Null
     end) options.

Definition useFlatConfig (env : Env) (context : BuilderContext) : bool :=
  existsb (fun name => existsSync env (path_join env (workspaceRoot context) name))
    supportedFlatConfigNames.

(** The [try] block of the handler. *)
Definition lintRun (env : Env) (options0 : Schema) (context : BuilderContext)
  : M BuilderOutput :=
  let systemRoot := workspaceRoot context in
  emit (Chdir systemRoot) ;;
  let projectName := projectName context in
  let printInfo := printInfo options0 in
  when printInfo
    (emit (ConsoleInfo (nl +:+ "Linting " +:+ JSON_stringify env projectName +:+ "..."))) ;;
  let eslintConfigPath := eslintConfigPath env options0 context in
  let options := withCacheLocation env options0 context in
  let useFlatConfig := useFlatConfig env context in
  let* (ESLint, eslint) :=
    resolveAndInstantiateESLint env eslintConfigPath options useFlatConfig in
  let version := JS.split_dot <$> version ESLint in
  if versionTooOld env version then throw (Error versionMessage) else
  (* [inl]: the handler has returned from inside the [catch] *)
  let* linted :=
    try_catch
      (let* lintResults :=
         call (LintFiles (lintFilePatterns options))
           (lintFiles eslint (lintFilePatterns options)) in
       ret (inr lintResults))
      (fun err =>
         match err with
         | Error msg =>
             if JS.includes msg typeInformationMarker then
               let eslintConfigPathForError := "for " +:+ projectName in
               let* root :=
                 call (GetProjectMetadata projectName)
                   (inr (projectMetadata_root context projectName)) in
               let eslintConfigPathForError :=
                 match root with
                 | Val root =>
                     if truthy root
                     then default EmptyString (resolveESLintConfigPath env root)
                     else eslintConfigPathForError
                 | _ => eslintConfigPathForError
                 end in
               emit (ConsoleError
                       (typeInformationMessage
                          (match eslintConfigPath with
                           | Some p => if truthy p then p else eslintConfigPathForError
                           | None => eslintConfigPathForError
                           end))) ;;
               ret (inl {| success := false; error := None |})
             else throw err
         | Thrown => throw err
         end) in
  match linted with
  | inl output => ret output
  | inr lintResults =>
  (if Z.of_nat (length lintResults) =? 0 then
     let* answers := ignoredOrNull eslint (lintFilePatterns options) in
     let ignoredPatterns :=
       map (fun pattern => "- '" +:+ pattern +:+ "'")
         (filter (fun pattern => truthy pattern = true) (filterBoolean answers)) in
     if truthy (Z.of_nat (length ignoredPatterns))
     then throw (Error (allFilesIgnoredMessage ignoredPatterns))
     else throw (Error nothingToLintMessage)
   else ret tt) ;;
  emit (OutputFixes lintResults) ;;
  let* formatter :=
    call (LoadFormatter (format options)) (loadFormatter eslint (format options)) in
  let reportOnlyErrors := truthy (quiet options) in
  let maxWarnings := maxWarnings options in
  let '((totalErrors, totalWarnings), adjusted) :=
    adjustResults reportOnlyErrors (0, 0) lintResults in
  let finalLintResults := filterBoolean adjusted in
  let hasWarningsToPrint := (totalWarnings >? 0) && negb reportOnlyErrors in
  let hasErrorsToPrint := totalErrors >? 0 in
  let* formattedResults :=
    call (Format finalLintResults) (inr (formatResults formatter finalLintResults)) in
  (match outputFile options with
   | Val f =>
       if truthy f then
         let pathToOutputFile := path_join env systemRoot f in
         emit (MkdirSync (path_dirname env pathToOutputFile)) ;;
         emit (WriteFileSync pathToOutputFile formattedResults)
       else emit (ConsoleInfo formattedResults)
   | _ => emit (ConsoleInfo formattedResults)
   end) ;;
  when (hasWarningsToPrint && printInfo)
    (emit (ConsoleWarn ("Lint warnings found in the listed files." +:+ nl))) ;;
  when (hasErrorsToPrint && printInfo)
    (emit (ConsoleError ("Lint errors found in the listed files." +:+ nl))) ;;
  when (((totalWarnings =? 0) || reportOnlyErrors) && (totalErrors =? 0) && printInfo)
    (emit (ConsoleInfo ("All files pass linting." +:+ nl))) ;;
  let tooManyWarnings := (maxWarnings >=? 0) && (totalWarnings >? maxWarnings) in
  when (tooManyWarnings && printInfo)
    (emit (ConsoleError (tooManyWarningsMessage totalWarnings maxWarnings))) ;;
  ret {| success := truthy (force options) || ((totalErrors =? 0) && negb tooManyWarnings);
         error := None |}
  end.

(** The handler given to [createBuilder]: the [try] block, and the [catch]
    that turns whatever it throws into a failure. *)
Definition handler (env : Env) (options : Schema) (context : BuilderContext)
  : M BuilderOutput :=
  try_catch (lintRun env options context)
    (fun err =>
       let errorMessage :=
         match err with
         | Error msg => "Error when running ESLint: " +:+ msg
         | Thrown => "Unknown error"
         end in
       ret {| success := false; error := Some errorMessage |}).

(** ** Stand-ins for the collaborators

    What the unit tests do with [jest.mock]: an engine class whose sessions
    answer with fixed results, and an environment built around it. *)

Module Mock.

Definition formatter : Formatter := {|
  formatResults := fun results => pretty (length results) +:+ " file(s)";
|}.

Definition instance (results : exn + list LintResult)
    (ignored : string -> bool) : ESLintInstance := {|
  lintFiles := fun _ => results;
  isPathIgnored := ignored;
  loadFormatter := fun _ => inr formatter;
|}.

Definition class (version : option string) (results : exn + list LintResult)
    (ignored : string -> bool) : ESLintClass := {|
  version := version;
  construct := fun _ => instance results ignored;
|}.

(** An environment whose files are those of [files], with paths joined by
    a slash. *)
Definition env (cls : ESLintClass) (files : list string) : Env := {|
  import_eslint := Some {| loadESLint := None; ESLint_export := cls |};
  require_FlatESLint := Some cls;
  existsSync := fun p => bool_decide (p ∈ files);
  path_join := fun a b => a +:+ "/" +:+ b;
  path_resolve := fun a b => a +:+ "/" +:+ b;
  path_dirname := fun p => p;
  JSON_stringify := fun s => dq +:+ s +:+ dq;
  Number_other := fun _ => JS.NaN;
|}.

Definition context : BuilderContext := {|
  workspaceRoot := "/ws";
  target_project := Some "app";
  projectMetadata_root := fun _ => Val "apps/app";
|}.

Definition result (file : string) (errors warnings : Z) : LintResult := {|
  filePath := file;
  messages :=
    replicate (Z.to_nat errors) {| severity := 2; ruleId := Null; message := "e" |}
    ++ replicate (Z.to_nat warnings) {| severity := 1; ruleId := Null; message := "w" |};
  errorCount := errors;
  warningCount := warnings;
|}.

(** The bag of the first unit tests. *)
Definition options : Schema := {|
  format := Undefined; lintFilePatterns := []; force := Undefined;
  quiet := Undefined; maxWarnings := -1; fix_ := Val true;
  silent := Undefined; cache := Val true; noEslintrc := Undefined;
  outputFile := Undefined; cacheLocation := Val "/root/cache";
  eslintConfig := Undefined; ignorePath := Undefined;
  cacheStrategy := Val "content"; rulesdir := Undefined;
  resolvePluginsRelativeTo := Undefined;
  reportUnusedDisableDirectives := Undefined; useEslintrc := Undefined;
  noConfigLookup := Undefined; stats := Undefined;
|}.

(** What [expect(ESLint).toHaveBeenCalledWith(...)] compares: the options
    object of the one construction, without the keys that hold
    [undefined]. *)
Definition calledWith (trace : list event) : option ESLintOptions :=
  match trace with
  | [NewESLint o] => Some (filter (fun kv => kv.2 <> VUndefined) o)
  | _ => None
  end.

(** The engine of the examples: version 8.57.0, no file ignored. *)
Definition eslint8 (results : list LintResult) : ESLintClass :=
  class (Some "8.57.0") (inr results) (fun _ => false).

(** The environment of the unit tests of the resolver. *)
Definition env0 : Env := env (eslint8 []) [].

End Mock.

(** [{ ...o, field: v }]: a bag with one field changed, to write the bags of
    the examples from [emptyOptions]. *)
Definition with_lintFilePatterns (v : list string) (o : Schema) : Schema := {|
  format := format o; lintFilePatterns := v; force := force o;
  quiet := quiet o; maxWarnings := maxWarnings o; fix_ := fix_ o;
  silent := silent o; cache := cache o; noEslintrc := noEslintrc o;
  outputFile := outputFile o; cacheLocation := cacheLocation o;
  eslintConfig := eslintConfig o; ignorePath := ignorePath o;
  cacheStrategy := cacheStrategy o; rulesdir := rulesdir o;
  resolvePluginsRelativeTo := resolvePluginsRelativeTo o;
  reportUnusedDisableDirectives := reportUnusedDisableDirectives o;
  useEslintrc := useEslintrc o; noConfigLookup := noConfigLookup o;
  stats := stats o;
|}.

Definition with_force (v : JS.opt bool) (o : Schema) : Schema := {|
  format := format o; lintFilePatterns := lintFilePatterns o; force := v;
  quiet := quiet o; maxWarnings := maxWarnings o; fix_ := fix_ o;
  silent := silent o; cache := cache o; noEslintrc := noEslintrc o;
  outputFile := outputFile o; cacheLocation := cacheLocation o;
  eslintConfig := eslintConfig o; ignorePath := ignorePath o;
  cacheStrategy := cacheStrategy o; rulesdir := rulesdir o;
  resolvePluginsRelativeTo := resolvePluginsRelativeTo o;
  reportUnusedDisableDirectives := reportUnusedDisableDirectives o;
  useEslintrc := useEslintrc o; noConfigLookup := noConfigLookup o;
  stats := stats o;
|}.

Definition with_quiet (v : JS.opt bool) (o : Schema) : Schema := {|
  format := format o; lintFilePatterns := lintFilePatterns o;
  force := force o; quiet := v; maxWarnings := maxWarnings o; fix_ := fix_ o;
  silent := silent o; cache := cache o; noEslintrc := noEslintrc o;
  outputFile := outputFile o; cacheLocation := cacheLocation o;
  eslintConfig := eslintConfig o; ignorePath := ignorePath o;
  cacheStrategy := cacheStrategy o; rulesdir := rulesdir o;
  resolvePluginsRelativeTo := resolvePluginsRelativeTo o;
  reportUnusedDisableDirectives := reportUnusedDisableDirectives o;
  useEslintrc := useEslintrc o; noConfigLookup := noConfigLookup o;
  stats := stats o;
|}.

Definition with_maxWarnings (v : Z) (o : Schema) : Schema := {|
  format := format o; lintFilePatterns := lintFilePatterns o;
  force := force o; quiet := quiet o; maxWarnings := v; fix_ := fix_ o;
  silent := silent o; cache := cache o; noEslintrc := noEslintrc o;
  outputFile := outputFile o; cacheLocation := cacheLocation o;
  eslintConfig := eslintConfig o; ignorePath := ignorePath o;
  cacheStrategy := cacheStrategy o; rulesdir := rulesdir o;
  resolvePluginsRelativeTo := resolvePluginsRelativeTo o;
  reportUnusedDisableDirectives := reportUnusedDisableDirectives o;
  useEslintrc := useEslintrc o; noConfigLookup := noConfigLookup o;
  stats := stats o;
|}.

Definition with_format (v : JS.opt string) (o : Schema) : Schema := {|
  format := v; lintFilePatterns := lintFilePatterns o; force := force o;
  quiet := quiet o; maxWarnings := maxWarnings o; fix_ := fix_ o;
  silent := silent o; cache := cache o; noEslintrc := noEslintrc o;
  outputFile := outputFile o; cacheLocation := cacheLocation o;
  eslintConfig := eslintConfig o; ignorePath := ignorePath o;
  cacheStrategy := cacheStrategy o; rulesdir := rulesdir o;
  resolvePluginsRelativeTo := resolvePluginsRelativeTo o;
  reportUnusedDisableDirectives := reportUnusedDisableDirectives o;
  useEslintrc := useEslintrc o; noConfigLookup := noConfigLookup o;
  stats := stats o;
|}.

Definition with_ignorePath (v : JS.opt string) (o : Schema) : Schema := {|
  format := format o; lintFilePatterns := lintFilePatterns o;
  force := force o; quiet := quiet o; maxWarnings := maxWarnings o;
  fix_ := fix_ o; silent := silent o; cache := cache o;
  noEslintrc := noEslintrc o; outputFile := outputFile o;
  cacheLocation := cacheLocation o; eslintConfig := eslintConfig o;
  ignorePath := v; cacheStrategy := cacheStrategy o; rulesdir := rulesdir o;
  resolvePluginsRelativeTo := resolvePluginsRelativeTo o;
  reportUnusedDisableDirectives := reportUnusedDisableDirectives o;
  useEslintrc := useEslintrc o; noConfigLookup := noConfigLookup o;
  stats := stats o;
|}.

Definition with_reportUnusedDisableDirectives (v : JS.opt string) (o : Schema) : Schema := {|
  format := format o; lintFilePatterns := lintFilePatterns o;
  force := force o; quiet := quiet o; maxWarnings := maxWarnings o;
  fix_ := fix_ o; silent := silent o; cache := cache o;
  noEslintrc := noEslintrc o; outputFile := outputFile o;
  cacheLocation := cacheLocation o; eslintConfig := eslintConfig o;
  ignorePath := ignorePath o; cacheStrategy := cacheStrategy o;
  rulesdir := rulesdir o;
  resolvePluginsRelativeTo := resolvePluginsRelativeTo o;
  reportUnusedDisableDirectives := v; useEslintrc := useEslintrc o;
  noConfigLookup := noConfigLookup o; stats := stats o;
|}.

Definition with_useEslintrc (v : JS.opt bool) (o : Schema) : Schema := {|
  format := format o; lintFilePatterns := lintFilePatterns o;
  force := force o; quiet := quiet o; maxWarnings := maxWarnings o;
  fix_ := fix_ o; silent := silent o; cache := cache o;
  noEslintrc := noEslintrc o; outputFile := outputFile o;
  cacheLocation := cacheLocation o; eslintConfig := eslintConfig o;
  ignorePath := ignorePath o; cacheStrategy := cacheStrategy o;
  rulesdir := rulesdir o;
  resolvePluginsRelativeTo := resolvePluginsRelativeTo o;
  reportUnusedDisableDirectives := reportUnusedDisableDirectives o;
  useEslintrc := v; noConfigLookup := noConfigLookup o; stats := stats o;
|}.

Definition with_noConfigLookup (v : JS.opt bool) (o : Schema) : Schema := {|
  format := format o; lintFilePatterns := lintFilePatterns o;
  force := force o; quiet := quiet o; maxWarnings := maxWarnings o;
  fix_ := fix_ o; silent := silent o; cache := cache o;
  noEslintrc := noEslintrc o; outputFile := outputFile o;
  cacheLocation := cacheLocation o; eslintConfig := eslintConfig o;
  ignorePath := ignorePath o; cacheStrategy := cacheStrategy o;
  rulesdir := rulesdir o;
  resolvePluginsRelativeTo := resolvePluginsRelativeTo o;
  reportUnusedDisableDirectives := reportUnusedDisableDirectives o;
  useEslintrc := useEslintrc o; noConfigLookup := v; stats := stats o;
|}.

Definition with_noEslintrc (v : JS.opt bool) (o : Schema) : Schema := {|
  format := format o; lintFilePatterns := lintFilePatterns o;
  force := force o; quiet := quiet o; maxWarnings := maxWarnings o;
  fix_ := fix_ o; silent := silent o; cache := cache o; noEslintrc := v;
  outputFile := outputFile o; cacheLocation := cacheLocation o;
  eslintConfig := eslintConfig o; ignorePath := ignorePath o;
  cacheStrategy := cacheStrategy o; rulesdir := rulesdir o;
  resolvePluginsRelativeTo := resolvePluginsRelativeTo o;
  reportUnusedDisableDirectives := reportUnusedDisableDirectives o;
  useEslintrc := useEslintrc o; noConfigLookup := noConfigLookup o;
  stats := stats o;
|}.

Definition with_rulesdir (v : JS.opt (list string)) (o : Schema) : Schema := {|
  format := format o; lintFilePatterns := lintFilePatterns o;
  force := force o; quiet := quiet o; maxWarnings := maxWarnings o;
  fix_ := fix_ o; silent := silent o; cache := cache o;
  noEslintrc := noEslintrc o; outputFile := outputFile o;
  cacheLocation := cacheLocation o; eslintConfig := eslintConfig o;
  ignorePath := ignorePath o; cacheStrategy := cacheStrategy o;
  rulesdir := v; resolvePluginsRelativeTo := resolvePluginsRelativeTo o;
  reportUnusedDisableDirectives := reportUnusedDisableDirectives o;
  useEslintrc := useEslintrc o; noConfigLookup := noConfigLookup o;
  stats := stats o;
|}.

Definition with_stats (v : JS.opt bool) (o : Schema) : Schema := {|
  format := format o; lintFilePatterns := lintFilePatterns o;
  force := force o; quiet := quiet o; maxWarnings := maxWarnings o;
  fix_ := fix_ o; silent := silent o; cache := cache o;
  noEslintrc := noEslintrc o; outputFile := outputFile o;
  cacheLocation := cacheLocation o; eslintConfig := eslintConfig o;
  ignorePath := ignorePath o; cacheStrategy := cacheStrategy o;
  rulesdir := rulesdir o;
  resolvePluginsRelativeTo := resolvePluginsRelativeTo o;
  reportUnusedDisableDirectives := reportUnusedDisableDirectives o;
  useEslintrc := useEslintrc o; noConfigLookup := noConfigLookup o;
  stats := v;
|}.

(** The bag and the runs of the scenarios: the pattern [src], the
    [stylish] formatter, an engine that returns [results]. *)
Definition stylish : Schema :=
  with_format (Val "stylish") (with_lintFilePatterns ["src"] emptyOptions).

Definition scenario (results : list LintResult) (options : Schema)
  : M BuilderOutput :=
  handler (Mock.env (Mock.eslint8 results) []) options Mock.context.

(** ** Vocabulary of the properties *)

(** The remediation pointer of the four errors for legacy-only options. *)
Definition flatConfigPointer : string :=
  "See https://eslint.org/docs/latest/use/configure/configuration-files-new".

(** A run reaches the version gate when the resolver, called as the
    handler calls it, returns the class [ESLint] and the session [eslint],
    leaving the trace [setup]. *)
Definition resolvesTo (env : Env) (options : Schema) (context : BuilderContext)
    (ESLint : ESLintClass) (eslint : ESLintInstance) (setup : list event)
  : Prop :=
  resolveAndInstantiateESLint env (eslintConfigPath env options context)
    (withCacheLocation env options context) (useFlatConfig env context)
  = (inr (ESLint, eslint), setup).

(** What the handler has done by then: the change of directory and, when
    information is printed, the line announcing the project. *)
Definition opening (env : Env) (options : Schema) (context : BuilderContext)
  : list event :=
  Chdir (workspaceRoot context)
  :: (if printInfo options
      then [ConsoleInfo (nl +:+ "Linting "
                         +:+ JSON_stringify env (projectName context) +:+ "...")]
      else []).

(** The events that lint, or that write to the disk. *)
Definition lintsOrWrites (ev : event) : bool :=
  match ev with
  | LintFiles _ | IsPathIgnored _ | OutputFixes _ | LoadFormatter _
  | Format _ | MkdirSync _ | WriteFileSync _ _ => true
  | _ => false
  end.

(** A reported version that does not reach 7.6, in the words of the
    specification: no version at all, fewer than two components between the
    dots, or a major and minor number below (7, 6). *)
Definition below_7_6 (env : Env) (version : option string) : Prop :=
  match version with
  | None => True
  | Some v =>
      match JS.split_dot v with
      | major :: minor :: _ =>
          JS.lt (Number env major) 7 = true
          \/ (JS.strict_eq (Number env major) 7 = true
              /\ JS.lt (Number env minor) 6 = true)
      | _ => True
      end
  end.

(** The failure the top-level [catch] makes of an [Error]. *)
Definition failure (msg : string) : BuilderOutput :=
  {| success := false; error := Some ("Error when running ESLint: " +:+ msg) |}.

(** The sum of a count over all the results of a run. *)
Definition total (count : LintResult -> Z) (results : list LintResult) : Z :=
  foldr (fun result sum => count result + sum) 0 results.

(** A run reaches the outcome step when the resolver succeeds, the version
    gate is passed, the lint pass returns [results], not empty, and the
    formatter is loaded. *)
Definition reachesOutcome (env : Env) (options : Schema)
    (context : BuilderContext) (results : list LintResult) : Prop :=
  exists (ESLint : ESLintClass) (eslint : ESLintInstance)
         (setup : list event) (formatter : Formatter),
    resolvesTo env options context ESLint eslint setup
    /\ versionTooOld env (JS.split_dot <$> version ESLint) = false
    /\ lintFiles eslint (lintFilePatterns options) = inr results
    /\ results <> []
    /\ loadFormatter eslint (format options) = inr formatter.

(** The patterns that the zero-result step reports: those the session
    ignores, the empty pattern apart, in the order they were given. *)
Definition ignoredPatternsOf (eslint : ESLintInstance) (patterns : list string)
  : list string :=
  filter (fun pattern => isPathIgnored eslint pattern = true
                         /\ pattern <> EmptyString) patterns.

(** The first of the files [names] of [projectRoot] that exists. *)
Definition firstExisting (env : Env) (projectRoot : string)
    (names : list string) : option string :=
  head (filter (fun path => existsSync env path = true)
          (map (path_join env projectRoot) names)).

(** The file names that [resolveESLintConfigPath] tries, in its order. *)
Definition configCandidates : list string :=
  [".eslintrc.json"; "eslint.config.js"; "eslint.config.mjs"; "eslint.config.cjs"].

(** The configuration that the type-information message names: the
    explicit one, else the one found in the root of the project, else the
    project by its name. *)
Definition configShown (env : Env) (options : Schema) (context : BuilderContext)
  : string :=
  let byName := "for " +:+ projectName context in
  let found :=
    match projectMetadata_root context (projectName context) with
    | Val (String c root) =>
        default EmptyString (firstExisting env (String c root) configCandidates)
    | _ => byName
    end in
  match eslintConfigPath env options context with
  | Some (String c p) => String c p
  | _ => found
  end.

(** One more bag with a field changed. *)
Definition with_resolvePluginsRelativeTo (v : JS.opt string) (o : Schema)
  : Schema := {|
  format := format o; lintFilePatterns := lintFilePatterns o;
  force := force o; quiet := quiet o; maxWarnings := maxWarnings o;
  fix_ := fix_ o; silent := silent o; cache := cache o;
  noEslintrc := noEslintrc o; outputFile := outputFile o;
  cacheLocation := cacheLocation o; eslintConfig := eslintConfig o;
  ignorePath := ignorePath o; cacheStrategy := cacheStrategy o;
  rulesdir := rulesdir o; resolvePluginsRelativeTo := v;
  reportUnusedDisableDirectives := reportUnusedDisableDirectives o;
  useEslintrc := useEslintrc o; noConfigLookup := noConfigLookup o;
  stats := stats o;
|}.

(** An environment in which [eslint] is not installed. *)
Definition noESLintEnv : Env := {|
  import_eslint := None;
  require_FlatESLint := None;
  existsSync := fun _ => false;
  path_join := fun a b => a +:+ "/" +:+ b;
  path_resolve := fun a b => a +:+ "/" +:+ b;
  path_dirname := fun p => p;
  JSON_stringify := fun s => dq +:+ s +:+ dq;
  Number_other := fun _ => JS.NaN;
|}.

(** The non-default bag of the legacy examples: the bag of the unit tests
    with rule directories, a plugin root, an ignore file and [noEslintrc]. *)
Definition legacyBag : Schema :=
  with_rulesdir (Val ["./some-rules"; "../some-more-rules"])
    (with_resolvePluginsRelativeTo (Val "./some-path")
       (with_ignorePath (Val "./.eslintignore")
          (with_noEslintrc (Val true) Mock.options))).

(** The keys of the options object under the legacy format. *)
Definition legacyKeys : gset string :=
  {[ "fix"; "cache"; "cacheLocation"; "cacheStrategy";
     "errorOnUnmatchedPattern"; "overrideConfigFile"; "rulePaths";
     "resolvePluginsRelativeTo"; "ignorePath"; "useEslintrc";
     "reportUnusedDisableDirectives" ]}.

(** One of the four legacy-only options is set, as the flat branch of the
    resolver tests them. *)
Definition legacyOnlyOptionSet (options : Schema) : Prop :=
  useEslintrc options <> Undefined
  \/ resolvePluginsRelativeTo options <> Undefined
  \/ ignorePath options <> Undefined
  \/ truthy (reportUnusedDisableDirectives options) = true.

(** An explicit path that the flat format accepts: absent, empty, or ending
    with one of the supported names. *)
Definition wellNamed (path : option string) : Prop :=
  forall p, path = Some p -> p <> EmptyString ->
  exists name, name ∈ supportedFlatConfigNames /\ JS.endsWith p name = true.

(** The bags that pass the checks of the resolver, under each format. *)
Definition passesChecks (path : option string) (options : Schema)
    (flat : bool) : Prop :=
  if flat then wellNamed path /\ ~ legacyOnlyOptionSet options
  else truthy (stats options) = false.

(** What the engine does with the flag, from the comment of the resolver on
    [errorOnUnmatchedPattern]: unless the flag is overridden with [false],
    [lintFiles] throws when no target file is found; with [false] it
    returns, without a result. [unmatched] tells the lists of patterns
    that match no file. *)
Definition honoursErrorOnUnmatchedPattern (ESLint : ESLintClass)
    (unmatched : list string -> Prop) : Prop :=
  forall (o : ESLintOptions) (patterns : list string),
    unmatched patterns ->
    o !! "errorOnUnmatchedPattern" = Some (VBool false) ->
    lintFiles (construct ESLint o) patterns = inr [].

(** An engine of that kind, in a project without any file to lint: its
    sessions throw on every list of patterns, unless they were constructed
    with the flag set to [false]. *)
Definition strictClass : ESLintClass := {|
  version := Some "8.57.0";
  construct := fun o => {|
    lintFiles := fun _ =>
      match o !! "errorOnUnmatchedPattern" with
      | Some (VBool false) => inr []
      | _ => inl (Error "No files matching the pattern were found.")
      end;
    isPathIgnored := fun _ => false;
    loadFormatter := fun _ => inr Mock.formatter;
  |};
|}.

(** ** The resolver *)

(** The class is found, or the one error of [resolveESLintClass] is thrown;
    no event either way. *)
Lemma resolveESLintClass_cases (env : Env) (flat : bool) :
  (exists cls, resolveESLintClass env flat = (inr cls, []))
  \/ resolveESLintClass env flat = (inl (Error unableToFindESLint), []).
Proof.
  unfold resolveESLintClass.
  destruct (import_eslint env) as [eslint|]; simpl; [|by right].
  destruct (loadESLint eslint) as [load|]; simpl.
  - destruct (load flat) as [cls|]; simpl; [left; by exists cls | by right].
  - destruct flat; simpl; [|left; by eexists].
    destruct (require_FlatESLint env) as [cls|]; simpl;
      [left; by exists cls | by right].
Qed.

(** Case analysis on the class resolution inside a resolver run. *)
Ltac class_cases env flat :=
  let cls := fresh "cls" in
  let E := fresh "Ecls" in
  destruct (resolveESLintClass_cases env flat) as [[cls E]|E];
  rewrite E; simpl.

(** A closed decidable proposition, settled by evaluating its decision. *)
Ltac by_computation :=
  match goal with
  | |- ?P => apply (bool_decide_unpack P); vm_compute; exact I
  end.

(** Case analysis on a three-state property. *)
Ltac opt_cases x :=
  let s := fresh "s" in
  destruct x as [| |s]; simpl; try (destruct s; simpl).

(** C7. Under the legacy format a requested [stats] makes the resolver
    throw, before anything else. Without it the run is decided by the
    resolution of the class. When the class is found, the resolver
    returns it with the session constructed from one options object, which
    has the eleven legacy keys and no [stats] key, and holds: under
    [rulePaths] the [rulesdir] array, or the empty array; under
    [resolvePluginsRelativeTo] and [ignorePath] the non-empty string given,
    else [undefined]; under [useEslintrc] the negation of [noEslintrc];
    under [overrideConfigFile] the explicit path, or [undefined]. When the
    class is not found, the resolver throws what the resolution threw. *)
Theorem legacy_session_options
    (env : Env) (path : option string) (options : Schema) :
  (truthy (stats options) = true ->
   resolveAndInstantiateESLint env path options false
   = (inl (Error statsRequiresFlatConfig), []))
  /\ (truthy (stats options) = false ->
      (forall ESLint : ESLintClass,
         resolveESLintClass env false = (inr ESLint, []) ->
         exists o : ESLintOptions,
           resolveAndInstantiateESLint env path options false
           = (inr (ESLint, construct ESLint o), [NewESLint o])
           /\ dom o = legacyKeys
           /\ o !! "stats" = None
           /\ o !! "rulePaths"
              = Some (VStrings (match rulesdir options with
                                | Val l => l
                                | _ => []
                                end))
           /\ o !! "resolvePluginsRelativeTo"
              = Some (match resolvePluginsRelativeTo options with
                      | Val (String c s) => VString (String c s)
                      | _ => VUndefined
                      end)
           /\ o !! "ignorePath"
              = Some (match ignorePath options with
                      | Val (String c s) => VString (String c s)
                      | _ => VUndefined
                      end)
           /\ o !! "useEslintrc"
              = Some (VBool (negb (truthy (noEslintrc options))))
           /\ o !! "overrideConfigFile"
              = Some (match path with
                      | Some p => VString p
                      | None => VUndefined
                      end))
      /\ (forall e : exn,
            resolveESLintClass env false = (inl e, []) ->
            resolveAndInstantiateESLint env path options false = (inl e, []))).
Proof.
  unfold resolveAndInstantiateESLint.
  split; intros Hstats; rewrite Hstats; simpl; [reflexivity|].
  split.
  - intros ESLint ->. simpl. eexists. split; [reflexivity|].
    split; [by vm_compute|]. split; [reflexivity|].
    split; [by destruct (rulesdir options)|].
    split; [by opt_cases (resolvePluginsRelativeTo options)|].
    split; [by opt_cases (ignorePath options)|].
    split; [reflexivity|]. by destruct path.
  - by intros e ->.
Qed.

(** The [stats] bag of the unit tests; a bag with rule directories, a
    plugin root, an ignore file and [noEslintrc]; and the same bag where
    [eslint] is not installed. *)
Lemma legacy_session_options_witness :
  resolveAndInstantiateESLint Mock.env0 (Some "./.eslintrc.json")
    (with_stats (Val true) emptyOptions) false
  = (inl (Error statsRequiresFlatConfig), [])
  /\ (exists o : ESLintOptions,
        resolveAndInstantiateESLint Mock.env0 (Some "./.eslintrc.json")
          legacyBag false
        = (inr (Mock.eslint8 [], construct (Mock.eslint8 []) o), [NewESLint o])
        /\ dom o = legacyKeys
        /\ o !! "stats" = None
        /\ o !! "rulePaths"
           = Some (VStrings ["./some-rules"; "../some-more-rules"])
        /\ o !! "resolvePluginsRelativeTo" = Some (VString "./some-path")
        /\ o !! "ignorePath" = Some (VString "./.eslintignore")
        /\ o !! "useEslintrc" = Some (VBool false)
        /\ o !! "overrideConfigFile" = Some (VString "./.eslintrc.json"))
  /\ resolveAndInstantiateESLint noESLintEnv (Some "./.eslintrc.json")
       legacyBag false
     = (inl (Error unableToFindESLint), []).
Proof.
  split; [|split].
  - apply (proj1 (legacy_session_options _ _ _)). reflexivity.
  - exact (proj1 (proj2 (legacy_session_options Mock.env0
                           (Some "./.eslintrc.json") legacyBag) eq_refl)
             (Mock.eslint8 []) eq_refl).
  - exact (proj2 (proj2 (legacy_session_options noESLintEnv
                           (Some "./.eslintrc.json") legacyBag) eq_refl)
             _ eq_refl).
Defined.

(** A path ends with a name that holds no slash exactly when its file name
    does. *)
Lemma endsWith_fileName (path name : string) :
  JS.hasSlash name = false ->
  JS.endsWith path name = JS.endsWith (JS.fileName path) name.
Proof.
  intros Hname. induction path as [|c s IH]; [done|].
  cbn [JS.fileName]. destruct (JS.hasSlash s) eqn:Hs.
  - rewrite <- IH. cbn [JS.endsWith].
    rewrite bool_decide_eq_false_2; [done|].
    intros <-. cbn in Hname. rewrite Hs in Hname.
    by destruct (bool_decide (c = "/"%char)).
  - case_bool_decide as Hc; [|done].
    cbn [JS.endsWith]. rewrite bool_decide_eq_false_2; [done|].
    intros <-. cbn in Hname. by rewrite bool_decide_eq_true_2 in Hname.
Qed.

(** The messages of the resolver are pairwise different. *)
Lemma resolver_messages_distinct :
  NoDup [statsRequiresFlatConfig; flatConfigNameMessage; unableToFindESLint;
         useEslintrcMessage; resolvePluginsRelativeToMessage;
         ignorePathMessage; reportUnusedDisableDirectivesMessage].
Proof. by_computation. Qed.

(** C6. Under the flat format, with an explicit configuration path (a
    non-empty string, which is what the test [eslintConfigPath && ...]
    lets through): when the file name of the path ends with none of the six
    names of [supportedFlatConfigNames] the resolver throws, first of all,
    the error that lists these names joined by [" or "]; when it ends with
    one of them, this error is not the outcome. *)
Theorem flat_config_name_check
    (env : Env) (p : string) (options : Schema) :
  truthy p = true ->
  (existsb (JS.endsWith (JS.fileName p)) supportedFlatConfigNames = false ->
   resolveAndInstantiateESLint env (Some p) options true
   = (inl (Error flatConfigNameMessage), []))
  /\ (existsb (JS.endsWith (JS.fileName p)) supportedFlatConfigNames = true ->
      fst (resolveAndInstantiateESLint env (Some p) options true)
      <> inl (Error flatConfigNameMessage))
  /\ supportedFlatConfigNames
     = ["eslint.config.js"; "eslint.config.mjs"; "eslint.config.cjs";
        "eslint.config.ts"; "eslint.config.mts"; "eslint.config.cts"]
  /\ Forall (fun name => JS.includes flatConfigNameMessage name = true)
       supportedFlatConfigNames.
Proof.
  intros Hp.
  assert (Hfile : existsb (JS.endsWith (JS.fileName p)) supportedFlatConfigNames
                  = existsb (JS.endsWith p) supportedFlatConfigNames).
  { unfold supportedFlatConfigNames. cbn [existsb].
    by rewrite <- !endsWith_fileName. }
  rewrite Hfile. clear Hfile.
  repeat split.
  - intros Hends. unfold resolveAndInstantiateESLint.
    replace (truthy (stats options) && negb true) with false
      by by destruct (truthy (stats options)).
    cbn [andb JS.truthy_option]. unfold truthy at 1. cbn [JS.truthy_option].
    change (existsb _ supportedFlatConfigNames)
      with (existsb (JS.endsWith p) supportedFlatConfigNames).
    by rewrite Hp, Hends.
  - intros Hends. unfold resolveAndInstantiateESLint.
    replace (truthy (stats options) && negb true) with false
      by by destruct (truthy (stats options)).
    unfold truthy at 1. cbn [JS.truthy_option andb].
    change (existsb _ supportedFlatConfigNames)
      with (existsb (JS.endsWith p) supportedFlatConfigNames).
    rewrite Hp, Hends. cbn [negb andb].
    class_cases env true.
    + destruct (JS.defined (useEslintrc options));
        [simpl; intros [= H]; revert H; by_computation|].
      destruct (JS.defined (resolvePluginsRelativeTo options));
        [simpl; intros [= H]; revert H; by_computation|].
      destruct (JS.defined (ignorePath options));
        [simpl; intros [= H]; revert H; by_computation|].
      destruct (truthy (reportUnusedDisableDirectives options));
        [simpl; intros [= H]; revert H; by_computation|].
      by destruct (JS.defined (noConfigLookup options)).
    + intros [= H]; revert H; by_computation.
  - apply Forall_forall. intros name Hin.
    repeat (apply elem_of_cons in Hin as [->|Hin]; [by vm_compute|]).
    by apply elem_of_nil in Hin.
Qed.

(** An [.eslintrc.json] is refused under the flat format, an
    [eslint.config.ts] is let through: the two cases of the unit tests. *)
Lemma flat_config_name_check_witness :
  resolveAndInstantiateESLint (Mock.env (Mock.eslint8 []) [])
    (Some "./.eslintrc.json") emptyOptions true
  = (inl (Error flatConfigNameMessage), [])
  /\ fst (resolveAndInstantiateESLint (Mock.env (Mock.eslint8 []) [])
            (Some "./eslint.config.ts") emptyOptions true)
     <> inl (Error flatConfigNameMessage).
Proof.
  split.
  - apply (flat_config_name_check _ "./.eslintrc.json" _ eq_refl). reflexivity.
  - apply (flat_config_name_check _ "./eslint.config.ts" _ eq_refl). reflexivity.
Defined.

(** The test of the configuration name, as the resolver writes it, is false
    for a path that is absent, empty or well named. *)
Lemma name_check_passes (path : option string) :
  match path with
  | Some p => truthy p = true ->
              existsb (JS.endsWith p) supportedFlatConfigNames = true
  | None => True
  end ->
  truthy path
  && negb (existsb
             (fun name => match path with
                          | Some p => JS.endsWith p name
                          | None => false
                          end)
             supportedFlatConfigNames) = false.
Proof.
  destruct path as [p|]; [|done]. intros Hname.
  unfold truthy at 1. cbn [JS.truthy_option].
  destruct (truthy p); [|done]. cbn [andb].
  change (existsb _ supportedFlatConfigNames)
    with (existsb (JS.endsWith p) supportedFlatConfigNames).
  by rewrite Hname.
Qed.

(** C4, as the code has it. Under the flat format a bag in which one of
    the four legacy-only options is set never resolves, and the error is
    that of the first check that fails, in the order of the code. When the
    explicit path is not well named, it is the error of the configuration
    name. When the path passes and the ESLint class is not found, it is
    what the resolution of the class threw. When the path passes and the
    class is found, the four options are tested in the order [useEslintrc]
    (anything but [undefined]), [resolvePluginsRelativeTo] (anything but
    [undefined]), [ignorePath] (anything but [undefined]),
    [reportUnusedDisableDirectives] (a truthy value), and the error thrown
    is the one of the first that is set; when none is set the resolver
    succeeds. The four errors differ from each other and from the other
    errors of the resolver, each quotes the name of its option and of no
    other, and each ends with the same pointer to the documentation. *)
Theorem flat_legacy_options_rejected
    (env : Env) (path : option string) (options : Schema) :
  let run := resolveAndInstantiateESLint env path options true in
  let named :=
    match path with
    | Some p => truthy p = true ->
                existsb (JS.endsWith p) supportedFlatConfigNames = true
    | None => True
    end in
  (JS.defined (useEslintrc options)
   || JS.defined (resolvePluginsRelativeTo options)
   || JS.defined (ignorePath options)
   || truthy (reportUnusedDisableDirectives options) = true ->
   exists e, run = (inl e, []))
  /\ (named ->
      (exists cls, resolveESLintClass env true = (inr cls, [])) ->
      (JS.defined (useEslintrc options) = true ->
       run = (inl (Error useEslintrcMessage), []))
      /\ (JS.defined (useEslintrc options) = false ->
          JS.defined (resolvePluginsRelativeTo options) = true ->
          run = (inl (Error resolvePluginsRelativeToMessage), []))
      /\ (JS.defined (useEslintrc options) = false ->
          JS.defined (resolvePluginsRelativeTo options) = false ->
          JS.defined (ignorePath options) = true ->
          run = (inl (Error ignorePathMessage), []))
      /\ (JS.defined (useEslintrc options) = false ->
          JS.defined (resolvePluginsRelativeTo options) = false ->
          JS.defined (ignorePath options) = false ->
          truthy (reportUnusedDisableDirectives options) = true ->
          run = (inl (Error reportUnusedDisableDirectivesMessage), [])))
  /\ NoDup [statsRequiresFlatConfig; flatConfigNameMessage; unableToFindESLint;
            useEslintrcMessage; resolvePluginsRelativeToMessage;
            ignorePathMessage; reportUnusedDisableDirectivesMessage]
  /\ map (fun msg =>
            filter (fun name => JS.includes msg ("`" +:+ name +:+ "`") = true)
              ["useEslintrc"; "resolvePluginsRelativeTo"; "ignorePath";
               "reportUnusedDisableDirectives"])
       [useEslintrcMessage; resolvePluginsRelativeToMessage;
        ignorePathMessage; reportUnusedDisableDirectivesMessage]
     = [["useEslintrc"]; ["resolvePluginsRelativeTo"]; ["ignorePath"];
        ["reportUnusedDisableDirectives"]]
  /\ Forall (fun msg => JS.endsWith msg flatConfigPointer = true)
       [useEslintrcMessage; resolvePluginsRelativeToMessage;
        ignorePathMessage; reportUnusedDisableDirectivesMessage]
  /\ (forall p, path = Some p -> truthy p = true ->
      existsb (JS.endsWith p) supportedFlatConfigNames = false ->
      run = (inl (Error flatConfigNameMessage), []))
  /\ (named ->
      forall e : exn, resolveESLintClass env true = (inl e, []) ->
      run = (inl e, []))
  /\ (named ->
      forall ESLint : ESLintClass,
      resolveESLintClass env true = (inr ESLint, []) ->
      JS.defined (useEslintrc options) = false ->
      JS.defined (resolvePluginsRelativeTo options) = false ->
      JS.defined (ignorePath options) = false ->
      truthy (reportUnusedDisableDirectives options) = false ->
      exists o : ESLintOptions,
        run = (inr (ESLint, construct ESLint o), [NewESLint o])).
Proof.
  intros run named. subst run named. unfold resolveAndInstantiateESLint.
  replace (truthy (stats options) && negb true) with false
    by by destruct (truthy (stats options)).
  cbn [andb].
  split; [|split; [|split; [|split; [|split; [|split; [|split]]]]]].
  - intros Hset.
    destruct (truthy path && _); [by eexists|].
    class_cases env true; [|by eexists].
    destruct (JS.defined (useEslintrc options)); [by eexists|].
    destruct (JS.defined (resolvePluginsRelativeTo options)); [by eexists|].
    destruct (JS.defined (ignorePath options)); [by eexists|].
    destruct (truthy (reportUnusedDisableDirectives options)); [by eexists|].
    done.
  - intros Hname [cls Hcls]. rewrite Hcls, (name_check_passes _ Hname).
    repeat split.
    + by intros ->.
    + by intros -> ->.
    + by intros -> -> ->.
    + by intros -> -> -> ->.
  - exact resolver_messages_distinct.
  - by vm_compute.
  - repeat constructor; by vm_compute.
  - intros p -> Hp Hends. unfold truthy at 1. cbn [JS.truthy_option].
    change (existsb _ supportedFlatConfigNames)
      with (existsb (JS.endsWith p) supportedFlatConfigNames).
    by rewrite Hp, Hends.
  - intros Hname e Hcls. by rewrite Hcls, (name_check_passes _ Hname).
  - intros Hname ESLint Hcls -> -> -> ->.
    rewrite Hcls, (name_check_passes _ Hname). cbn [bind].
    destruct (JS.defined (noConfigLookup options)); by eexists.
Qed.

(** The bags of the unit test, one for each of the four options, in an
    environment where the class is found; two options set at once; a badly
    named path with an option set; an option set where [eslint] is not
    installed; and no option set. *)
Lemma flat_legacy_options_rejected_witness :
  let env := Mock.env0 in
  let run := fun env path options =>
    resolveAndInstantiateESLint env path options true in
  run env None (with_useEslintrc (Val false) emptyOptions)
  = (inl (Error useEslintrcMessage), [])
  /\ run env None (with_resolvePluginsRelativeTo (Val "./some-path") emptyOptions)
     = (inl (Error resolvePluginsRelativeToMessage), [])
  /\ run env None (with_ignorePath (Val "./some-path") emptyOptions)
     = (inl (Error ignorePathMessage), [])
  /\ run env None
       (with_reportUnusedDisableDirectives (Val "warn") emptyOptions)
     = (inl (Error reportUnusedDisableDirectivesMessage), [])
  /\ run env (Some "./eslint.config.js")
       (with_ignorePath (Val "./some-path")
          (with_resolvePluginsRelativeTo (Val "./some-path") emptyOptions))
     = (inl (Error resolvePluginsRelativeToMessage), [])
  /\ run env (Some "./.eslintrc.json")
       (with_ignorePath (Val "./some-path") emptyOptions)
     = (inl (Error flatConfigNameMessage), [])
  /\ run noESLintEnv None (with_useEslintrc (Val false) emptyOptions)
     = (inl (Error unableToFindESLint), [])
  /\ (exists o : ESLintOptions,
        run env (Some "./eslint.config.js") emptyOptions
        = (inr (Mock.eslint8 [], construct (Mock.eslint8 []) o),
           [NewESLint o])).
Proof.
  intros env run. subst run. cbn beta.
  assert (Hcls : exists cls, resolveESLintClass env true = (inr cls, []))
    by (by eexists).
  split; [|split; [|split; [|split; [|split; [|split; [|split]]]]]].
  - by apply (proj1 (proj2 (flat_legacy_options_rejected env None _)) I Hcls).
  - by apply (proj1 (proj2 (flat_legacy_options_rejected env None _)) I Hcls).
  - by apply (proj1 (proj2 (flat_legacy_options_rejected env None _)) I Hcls).
  - by apply (proj1 (proj2 (flat_legacy_options_rejected env None _)) I Hcls).
  - by apply (proj1 (proj2 (flat_legacy_options_rejected env
                              (Some "./eslint.config.js") _))
                ltac:(done) Hcls).
  - by apply (proj1 (proj2 (proj2 (proj2 (proj2 (proj2
                (flat_legacy_options_rejected env
                   (Some "./.eslintrc.json") _))))))
                "./.eslintrc.json").
  - by apply (proj1 (proj2 (proj2 (proj2 (proj2 (proj2 (proj2
                (flat_legacy_options_rejected noESLintEnv None _)))))))
                I).
  - by apply (proj2 (proj2 (proj2 (proj2 (proj2 (proj2 (proj2
                (flat_legacy_options_rejected env
                   (Some "./eslint.config.js") emptyOptions)))))))
                ltac:(done) (Mock.eslint8 [])).
Defined.

(** C4, as stated, fails where an earlier check fails first. With an
    [.eslintrc.json] as explicit path and [ignorePath] set, the error is the
    one of the configuration name, which does not mention [ignorePath]; with
    [useEslintrc] and [ignorePath] both set, the error is the one of
    [useEslintrc], which does not mention [ignorePath] either. *)
Lemma flat_legacy_option_error_preempted :
  let env := Mock.env (Mock.eslint8 []) [] in
  let options := with_ignorePath (Val "./some-path") emptyOptions in
  resolveAndInstantiateESLint env (Some "./.eslintrc.json") options true
  = (inl (Error flatConfigNameMessage), [])
  /\ resolveAndInstantiateESLint env None
       (with_useEslintrc (Val false) options) true
     = (inl (Error useEslintrcMessage), [])
  /\ flatConfigNameMessage <> ignorePathMessage
  /\ useEslintrcMessage <> ignorePathMessage
  /\ JS.includes flatConfigNameMessage "ignorePath" = false
  /\ JS.includes useEslintrcMessage "ignorePath" = false.
Proof.
  cbn zeta. split; [reflexivity|]. split; [reflexivity|].
  split; [by_computation|]. split; [by_computation|]. by vm_compute.
Qed.

(** C3, as the code has it. Under the flat format, the options object of
    a resolver run that succeeds holds under [overrideConfigFile]: with
    [noConfigLookup] left out, the explicit path, or [undefined] without one;
    with [noConfigLookup] present, the explicit path when there is one, and
    without one the boolean [true] when [noConfigLookup] is truthy and
    [undefined] when it is not. It never holds [false]. *)
Theorem flat_overrideConfigFile
    (env : Env) (path : option string) (options : Schema)
    (ESLint : ESLintClass) (eslint : ESLintInstance) (trace : list event) :
  resolveAndInstantiateESLint env path options true
  = (inr (ESLint, eslint), trace) ->
  exists o : ESLintOptions,
    trace = [NewESLint o] /\ eslint = construct ESLint o
    /\ (noConfigLookup options = Undefined ->
        o !! "overrideConfigFile"
        = Some (match path with Some p => VString p | None => VUndefined end))
    /\ (noConfigLookup options <> Undefined ->
        forall p, path = Some p ->
        o !! "overrideConfigFile" = Some (VString p))
    /\ (noConfigLookup options <> Undefined -> path = None ->
        o !! "overrideConfigFile"
        = Some (if truthy (noConfigLookup options) then VBool true
                else VUndefined))
    /\ o !! "overrideConfigFile" <> Some (VBool false).
Proof.
  unfold resolveAndInstantiateESLint.
  replace (truthy (stats options) && negb true) with false
    by by destruct (truthy (stats options)).
  cbn [andb]. destruct (truthy path && _); [done|].
  class_cases env true; [|done].
  destruct (JS.defined (useEslintrc options)); [done|].
  destruct (JS.defined (resolvePluginsRelativeTo options)); [done|].
  destruct (JS.defined (ignorePath options)); [done|].
  destruct (truthy (reportUnusedDisableDirectives options)); [done|].
  destruct (noConfigLookup options) as [| |[|]]; simpl;
    intros [= <- <- <-]; eexists; (split; [reflexivity|]);
    (split; [reflexivity|]); destruct path as [p|]; simpl;
    repeat split; try done; by intros _ ? [= <-].
Qed.

(** A bag with [noConfigLookup: true] and no path, and the bag of the unit
    test with [./eslint.config.ts] and nothing else. *)
Lemma flat_overrideConfigFile_witness :
  let env := Mock.env (Mock.eslint8 []) [] in
  (exists o : ESLintOptions,
     snd (resolveAndInstantiateESLint env None
            (with_noConfigLookup (Val true) emptyOptions) true)
     = [NewESLint o]
     /\ o !! "overrideConfigFile" = Some (VBool true))
  /\ (exists o : ESLintOptions,
        snd (resolveAndInstantiateESLint env (Some "./eslint.config.ts")
               emptyOptions true)
        = [NewESLint o]
        /\ o !! "overrideConfigFile" = Some (VString "./eslint.config.ts")).
Proof.
  intros env. split.
  - destruct (flat_overrideConfigFile env None
                (with_noConfigLookup (Val true) emptyOptions) _ _ _ eq_refl)
      as (o & Ht & _ & _ & _ & H & _).
    exists o. split; [exact Ht|]. by apply H.
  - destruct (flat_overrideConfigFile env (Some "./eslint.config.ts")
                emptyOptions _ _ _ eq_refl)
      as (o & Ht & _ & H & _).
    exists o. split; [exact Ht|]. by apply H.
Defined.

(** C3, as stated, fails at [noConfigLookup: true] without a path: the
    options object holds the boolean [true] under [overrideConfigFile], a key
    that is therefore neither absent nor [undefined]. *)
Lemma noConfigLookup_true_is_not_undefined :
  exists o : ESLintOptions,
    snd (resolveAndInstantiateESLint (Mock.env (Mock.eslint8 []) []) None
           (with_noConfigLookup (Val true) emptyOptions) true)
    = [NewESLint o]
    /\ o !! "overrideConfigFile" = Some (VBool true)
    /\ o !! "overrideConfigFile" <> Some VUndefined
    /\ o !! "overrideConfigFile" <> None.
Proof. eexists. split; [reflexivity|]. by repeat split. Qed.

(** ** The lint run *)

(** *** The result and the trace of a sequence *)

Lemma fst_bind {A B} (m : M A) (f : A -> M B) :
  fst (bind m f) = match fst m with
                   | inl e => inl e
                   | inr a => fst (f a)
                   end.
Proof. destruct m as [[e|a] t]; [done|]. cbn. by destruct (f a). Qed.

Lemma fst_try_catch {A} (m : M A) (h : exn -> M A) :
  fst (try_catch m h) = match fst m with
                        | inl e => fst (h e)
                        | inr a => inr a
                        end.
Proof. destruct m as [[e|a] t]; [|done]. cbn. by destruct (h e). Qed.

Lemma fst_when (b : bool) (ev : event) : fst (when b (emit ev)) = inr tt.
Proof. by destruct b. Qed.

Lemma fst_call {A} (ev : event) (r : exn + A) : fst (call ev r) = r.
Proof. reflexivity. Qed.

Lemma fst_emit (ev : event) : fst (emit ev) = inr tt.
Proof. reflexivity. Qed.

Lemma snd_bind {A B} (m : M A) (f : A -> M B) :
  snd (bind m f) = snd m ++ match fst m with
                            | inl _ => []
                            | inr a => snd (f a)
                            end.
Proof.
  destruct m as [[e|a] t]; cbn; [by rewrite app_nil_r|]. by destruct (f a).
Qed.

Lemma snd_try_catch {A} (m : M A) (h : exn -> M A) :
  snd (try_catch m h) = snd m ++ match fst m with
                                 | inl e => snd (h e)
                                 | inr _ => []
                                 end.
Proof.
  destruct m as [[e|a] t]; cbn; [|by rewrite app_nil_r]. by destruct (h e).
Qed.


(** The shape of the trace of a resolver run, used for every run of the
    handler that gets past it. *)
Lemma resolver_trace (env : Env) (path : option string) (options : Schema)
    (flat : bool) (ESLint : ESLintClass) (eslint : ESLintInstance)
    (setup : list event) :
  resolveAndInstantiateESLint env path options flat
  = (inr (ESLint, eslint), setup) ->
  exists o : ESLintOptions, setup = [NewESLint o] /\ eslint = construct ESLint o.
Proof.
  unfold resolveAndInstantiateESLint.
  destruct (truthy (stats options) && negb flat); [done|].
  destruct (flat && truthy path && _); [done|].
  class_cases env flat; [|done].
  destruct flat; simpl.
  - destruct (JS.defined (useEslintrc options)); [done|].
    destruct (JS.defined (resolvePluginsRelativeTo options)); [done|].
    destruct (JS.defined (ignorePath options)); [done|].
    destruct (truthy (reportUnusedDisableDirectives options)); [done|].
    destruct (JS.defined (noConfigLookup options)); simpl;
      intros [= <- <- <-]; by eexists.
  - intros [= <- <- <-]. by eexists.
Qed.

(** The test of the gate is true on every version below 7.6. *)
Lemma versionTooOld_below (env : Env) (version : option string) :
  below_7_6 env version -> versionTooOld env (JS.split_dot <$> version) = true.
Proof.
  destruct version as [v|]; [|done]. cbn.
  destruct (JS.split_dot v) as [|major [|minor rest]];
    [intros _; reflexivity..|].
  unfold component. cbn [nth].
  intros [->|[-> ->]]; by rewrite ?orb_true_r.
Qed.

(** The version 7.5.0 is below 7.6, in every environment. *)
Lemma below_7_6_at_7_5_0 (env : Env) : below_7_6 env (Some "7.5.0").
Proof. cbn. by right. Qed.

(** C8. When the resolved class reports no version, a version of fewer
    than two components or a version below 7.6, the run ends at the gate: the
    handler returns a failure with the version message, and its trace is
    the opening of the run followed by the construction of the session; it
    has linted nothing and written nothing. *)
Theorem version_gate
    (env : Env) (options : Schema) (context : BuilderContext)
    (ESLint : ESLintClass) (eslint : ESLintInstance) (setup : list event) :
  resolvesTo env options context ESLint eslint setup ->
  below_7_6 env (version ESLint) ->
  handler env options context
  = (inr (failure versionMessage), opening env options context ++ setup)
  /\ Forall (fun ev => lintsOrWrites ev = false)
       (snd (handler env options context)).
Proof.
  intros Hres Hbelow.
  assert (Hrun : handler env options context
                 = (inr (failure versionMessage),
                    opening env options context ++ setup)).
  { unfold handler, lintRun, opening. fold (resolvesTo env options context ESLint eslint setup) in Hres.
    unfold resolvesTo in Hres. rewrite Hres.
    cbn [bind emit]. rewrite (versionTooOld_below _ _ Hbelow).
    destruct (printInfo options); cbn; by rewrite ?app_nil_r. }
  split; [exact Hrun|]. rewrite Hrun. cbn [snd].
  destruct (resolver_trace _ _ _ _ _ _ _ Hres) as (o & -> & _).
  unfold opening. destruct (printInfo options); by repeat constructor.
Qed.

(** The scenario of the specification: an engine that reports 7.5.0. *)
Lemma version_gate_witness :
  let env := Mock.env (Mock.class (Some "7.5.0")
                         (inr [Mock.result "a.ts" 1 0]) (fun _ => false)) [] in
  let options := with_lintFilePatterns ["src/**/*.ts"] emptyOptions in
  fst (handler env options Mock.context) = inr (failure versionMessage)
  /\ Forall (fun ev => lintsOrWrites ev = false)
       (snd (handler env options Mock.context)).
Proof.
  intros env options.
  destruct (version_gate env options Mock.context _ _ _ eq_refl
              (below_7_6_at_7_5_0 env)) as [Hrun Htrace].
  split; [by rewrite Hrun | exact Htrace].
Defined.

Lemma total_cons (count : LintResult -> Z) (result : LintResult)
    (rest : list LintResult) :
  total count (result :: rest) = count result + total count rest.
Proof. reflexivity. Qed.

(** The totals after [lintResults.map]: what they were, plus the sums of
    the two counts over all the results, whatever [reportOnlyErrors] is. *)
Lemma adjustResults_totals (reportOnlyErrors : bool) (totals : Z * Z)
    (lintResults : list LintResult) :
  fst (adjustResults reportOnlyErrors totals lintResults)
  = (fst totals + total errorCount lintResults,
     snd totals + total warningCount lintResults).
Proof.
  revert totals. induction lintResults as [|result rest IH]; intros [e w].
  - cbn [adjustResults total foldr fst snd]. f_equal; lia.
  - cbn [adjustResults]. unfold adjustResult. rewrite !total_cons.
    destruct (truthy (errorCount result) || _);
      specialize (IH (e + errorCount result, w + warningCount result));
      destruct (adjustResults _ _ rest) as [totals' rs];
      cbn [fst snd] in *; rewrite IH; f_equal; lia.
Qed.


(** Writing or printing the report does not throw. *)
Lemma fst_report {A} (env : Env) (options : Schema) (context : BuilderContext)
    (text : string) (k : M A) :
  fst ((match outputFile options with
        | Val f =>
            if truthy f then
              emit (MkdirSync
                      (path_dirname env (path_join env (workspaceRoot context) f)));;
              emit (WriteFileSync (path_join env (workspaceRoot context) f) text)
            else emit (ConsoleInfo text)
        | _ => emit (ConsoleInfo text)
        end);; k)
  = fst k.
Proof.
  rewrite fst_bind.
  destruct (outputFile options) as [| |f]; try done. by destruct (truthy f).
Qed.

(** The fields that [options.cacheLocation = ...] leaves alone. *)
Ltac same_options :=
  cbn [withCacheLocation set_cacheLocation format quiet outputFile
       maxWarnings force lintFilePatterns].

(** C1. A run that reaches the outcome step returns an output without
    error message, whose [success] is true exactly when [force] is truthy,
    or the sum of [errorCount] over all the results is zero and it is not the
    case that [maxWarnings] is non-negative and exceeded by the sum of
    [warningCount] over all the results. *)
Theorem success_iff
    (env : Env) (options : Schema) (context : BuilderContext)
    (results : list LintResult) :
  reachesOutcome env options context results ->
  exists output : BuilderOutput,
    fst (handler env options context) = inr output
    /\ error output = None
    /\ (success output = true <->
        truthy (force options) = true
        \/ (total errorCount results = 0
            /\ ~ (0 <= maxWarnings options
                  /\ maxWarnings options < total warningCount results))).
Proof.
  intros (ESLint & eslint & setup & formatter
          & Hres & Hver & Hlint & Hne & Hfmt).
  unfold resolvesTo in Hres.
  unfold handler. rewrite fst_try_catch. unfold lintRun.
  rewrite fst_bind, fst_emit, fst_bind, fst_when, fst_bind, Hres.
  cbn [fst]. rewrite Hver.
  rewrite fst_bind, fst_try_catch, fst_bind, fst_call.
  same_options. rewrite Hlint. cbn [fst ret].
  destruct results as [|r rs]; [done|].
  rewrite fst_bind.
  replace (Z.of_nat (length (r :: rs)) =? 0) with false by done.
  cbn [ret fst]. rewrite fst_bind, fst_emit, fst_bind, fst_call, Hfmt.
  pose proof (adjustResults_totals (truthy (quiet options)) (0, 0) (r :: rs))
    as Htot.
  destruct (adjustResults _ _ (r :: rs))
    as [[totalErrors totalWarnings] adjusted].
  cbn [fst snd] in Htot. injection Htot as -> ->.
  rewrite fst_bind, fst_call, fst_report.
  rewrite !(fst_bind (when _ _)), !fst_when. cbn [fst ret].
  eexists. split; [reflexivity|]. split; [reflexivity|]. cbn [success].
  rewrite !Z.add_0_l, Z.geb_leb, Z.gtb_ltb.
  rewrite orb_true_iff, andb_true_iff, negb_true_iff, andb_false_iff,
    Z.eqb_eq, Z.leb_gt, Z.ltb_ge, !total_cons.
  intuition lia.
Qed.

(** The scenarios of the specification: no error, five warnings against a
    limit of three, and three warnings against a limit of three. *)
Lemma success_iff_witness :
  let options := with_maxWarnings 3 (with_lintFilePatterns ["src"] emptyOptions) in
  let run (warnings : Z) :=
    handler (Mock.env (Mock.eslint8 [Mock.result "a.ts" 0 warnings]) [])
      options Mock.context in
  fst (run 5) = inr {| success := false; error := None |}
  /\ fst (run 3) = inr {| success := true; error := None |}.
Proof.
  intros options run.
  assert (Hreach : forall warnings,
            reachesOutcome
              (Mock.env (Mock.eslint8 [Mock.result "a.ts" 0 warnings]) [])
              options Mock.context [Mock.result "a.ts" 0 warnings]).
  { intros warnings. do 4 eexists. by repeat split. }
  split.
  - destruct (success_iff _ _ _ _ (Hreach 5)) as ([s e] & Hrun & He & Hs).
    fold (run 5) in Hrun. rewrite Hrun. cbn in He, Hs. subst e. f_equal.
    destruct s; [|done]. destruct (proj1 Hs eq_refl) as [|[_ Hmax]]; [done|].
    exfalso. apply Hmax. by vm_compute.
  - destruct (success_iff _ _ _ _ (Hreach 3)) as ([s e] & Hrun & He & Hs).
    fold (run 3) in Hrun. rewrite Hrun. cbn in He, Hs. subst e. f_equal.
    f_equal. apply Hs. right. split; [done|]. intros [_ Hlt]. by vm_compute in Hlt.
Defined.

Lemma ignoredOrNull_run (eslint : ESLintInstance) (patterns : list string) :
  ignoredOrNull eslint patterns
  = (inr (map (fun pattern =>
                 if isPathIgnored eslint pattern then Some pattern else None)
            patterns),
     map IsPathIgnored patterns).
Proof.
  induction patterns as [|pattern rest IH]; [done|].
  cbn [ignoredOrNull]. rewrite IH. cbn. by rewrite app_nil_r.
Qed.

Lemma ignored_answers (eslint : ESLintInstance) (patterns : list string) :
  filter (fun pattern => truthy pattern = true)
    (filterBoolean
       (map (fun pattern =>
               if isPathIgnored eslint pattern then Some pattern else None)
          patterns))
  = ignoredPatternsOf eslint patterns.
Proof.
  unfold ignoredPatternsOf, filterBoolean.
  induction patterns as [|pattern rest IH]; [done|].
  cbn [map]. rewrite filter_cons.
  destruct (isPathIgnored eslint pattern) eqn:Hi; cbn [omap list_omap id].
  - rewrite filter_cons, IH.
    destruct pattern as [|c s].
    + rewrite decide_False by done. rewrite decide_False; [done|]. by intros [_ ?].
    + rewrite decide_True by done. by rewrite decide_True.
  - rewrite IH. rewrite decide_False; [done|]. by intros [? _].
Qed.

Lemma truthy_length_cons {A} (x : A) (l : list A) :
  truthy (Z.of_nat (length (x :: l))) = true.
Proof. reflexivity. Qed.

Lemma lintRun_zero_results
    (env : Env) (options : Schema) (context : BuilderContext)
    (ESLint : ESLintClass) (eslint : ESLintInstance) (setup : list event) :
  resolvesTo env options context ESLint eslint setup ->
  versionTooOld env (JS.split_dot <$> version ESLint) = false ->
  lintFiles eslint (lintFilePatterns options) = inr [] ->
  lintRun env options context
  = (inl (Error
            (match ignoredPatternsOf eslint (lintFilePatterns options) with
             | [] => nothingToLintMessage
             | ignored =>
                 allFilesIgnoredMessage
                   (map (fun pattern => "- '" +:+ pattern +:+ "'") ignored)
             end)),
     opening env options context ++ setup
     ++ LintFiles (lintFilePatterns options)
     :: map IsPathIgnored (lintFilePatterns options)).
Proof.
  intros Hres Hver Hlint. unfold resolvesTo in Hres.
  set (ignored := ignoredPatternsOf eslint (lintFilePatterns options)).
  apply injective_projections.
  - unfold lintRun.
    rewrite fst_bind, fst_emit, fst_bind, fst_when, fst_bind, Hres.
    cbn [fst]. rewrite Hver.
    rewrite fst_bind, fst_try_catch, fst_bind, fst_call.
    same_options. rewrite Hlint. cbn [fst ret length].
    change (Z.of_nat 0 =? 0) with true. cbn match.
    rewrite fst_bind, fst_bind, ignoredOrNull_run. cbn [fst].
    rewrite ignored_answers. fold ignored. rewrite length_map.
    clearbody ignored. destruct ignored as [|p l]; [reflexivity|].
    rewrite truthy_length_cons. reflexivity.
  - unfold lintRun, opening.
    rewrite snd_bind, fst_emit, snd_bind, fst_when, snd_bind, Hres.
    cbn [fst snd]. rewrite Hver.
    rewrite snd_bind, fst_try_catch, snd_try_catch, fst_bind, snd_bind, fst_call.
    same_options. rewrite Hlint. cbn [fst snd ret length call].
    change (Z.of_nat 0 =? 0) with true. cbn match.
    rewrite snd_bind, fst_bind, snd_bind, ignoredOrNull_run. cbn [fst snd].
    rewrite ignored_answers. fold ignored. rewrite length_map.
    clearbody ignored.
    destruct ignored as [|p l], (printInfo options);
      rewrite ?truthy_length_cons; cbn; rewrite ?app_nil_r; reflexivity.
Qed.

(** C5, as the code has it. When the lint pass returns no result, the
    handler asks the session about every pattern, one call each, in the
    order of the patterns, and returns a failure: when at least one
    non-empty pattern is ignored, with the message that lists the ignored
    patterns, each as [- 'pattern'], in the order they were given; when none
    is, with the message that there is nothing to lint. The two messages
    are never the same. *)
Theorem zero_results
    (env : Env) (options : Schema) (context : BuilderContext)
    (ESLint : ESLintClass) (eslint : ESLintInstance) (setup : list event) :
  resolvesTo env options context ESLint eslint setup ->
  versionTooOld env (JS.split_dot <$> version ESLint) = false ->
  lintFiles eslint (lintFilePatterns options) = inr [] ->
  let ignored := ignoredPatternsOf eslint (lintFilePatterns options) in
  handler env options context
  = (inr (failure
            (match ignored with
             | [] => nothingToLintMessage
             | _ :: _ =>
                 allFilesIgnoredMessage
                   (map (fun pattern => "- '" +:+ pattern +:+ "'") ignored)
             end)),
     opening env options context ++ setup
     ++ LintFiles (lintFilePatterns options)
     :: map IsPathIgnored (lintFilePatterns options))
  /\ forall lines, allFilesIgnoredMessage lines <> nothingToLintMessage.
Proof.
  intros Hres Hver Hlint ignored. split; [|done]. unfold handler.
  rewrite (lintRun_zero_results _ _ _ _ _ _ Hres Hver Hlint).
  cbn [try_catch ret]. rewrite app_nil_r. subst ignored.
  by destruct (ignoredPatternsOf _ _).
Qed.

(** The scenario of the specification: no result, and both patterns
    ignored. *)
Lemma zero_results_witness :
  let cls := Mock.class (Some "8.57.0") (inr []) (fun _ => true) in
  let options := with_lintFilePatterns ["src/a.ts"; "src/b.html"] emptyOptions in
  fst (handler (Mock.env cls []) options Mock.context)
  = inr (failure (allFilesIgnoredMessage ["- 'src/a.ts'"; "- 'src/b.html'"])).
Proof.
  intros cls options.
  destruct (zero_results (Mock.env cls []) options Mock.context
              _ _ _ eq_refl eq_refl eq_refl) as [Hrun _].
  by rewrite Hrun.
Defined.

(** C5, as stated, fails when only some of the patterns are ignored: the
    run does not end with the nothing-to-lint error but with the list of the
    ignored ones. *)
Lemma some_patterns_ignored :
  let ignores := fun pattern : string => bool_decide (pattern = "src/a.ts") in
  let cls := Mock.class (Some "8.57.0") (inr []) ignores in
  let options := with_lintFilePatterns ["src/a.ts"; "src/b.html"] emptyOptions in
  ignores "src/b.html" = false
  /\ fst (handler (Mock.env cls []) options Mock.context)
     = inr (failure (allFilesIgnoredMessage ["- 'src/a.ts'"]))
  /\ fst (handler (Mock.env cls []) options Mock.context)
     <> inr (failure nothingToLintMessage).
Proof. by vm_compute. Qed.

(** The name check of the resolver, in terms of [wellNamed]. *)
Lemma name_check_false_iff (path : option string) :
  truthy path
  && negb (existsb
             (fun name => match path with
                          | Some p => JS.endsWith p name
                          | None => false
                          end)
             supportedFlatConfigNames) = false
  <-> wellNamed path.
Proof.
  unfold wellNamed. destruct path as [p|]; [|done].
  unfold truthy at 1. cbn [JS.truthy_option].
  change (existsb _ supportedFlatConfigNames)
    with (existsb (JS.endsWith p) supportedFlatConfigNames).
  destruct p as [|c s].
  { split; [|done]. by intros _ p [= <-] ?. }
  cbn [truthy JS.truthy_string andb].
  rewrite negb_false_iff, existsb_exists. split.
  - intros (name & Hin & Hends) p [= <-] _. exists name.
    by rewrite list_elem_of_In.
  - intros H. destruct (H _ eq_refl) as (name & Hin & Hends); [done|].
    exists name. by rewrite <- list_elem_of_In.
Qed.

(** Without a legacy-only option set, the four tests of the flat branch are
    negative. *)
Lemma no_legacyOnlyOption (options : Schema) :
  ~ legacyOnlyOptionSet options ->
  JS.defined (useEslintrc options) = false
  /\ JS.defined (resolvePluginsRelativeTo options) = false
  /\ JS.defined (ignorePath options) = false
  /\ truthy (reportUnusedDisableDirectives options) = false.
Proof.
  unfold legacyOnlyOptionSet. intros Hnone.
  repeat split.
  - destruct (useEslintrc options); try done; destruct Hnone; by left.
  - destruct (resolvePluginsRelativeTo options); try done;
      destruct Hnone; right; by left.
  - destruct (ignorePath options); try done;
      destruct Hnone; right; right; by left.
  - destruct (truthy (reportUnusedDisableDirectives options)); [|done].
    destruct Hnone. by right; right; right.
Qed.

(** A bag that passes the checks, with a class that is found, resolves to
    that class and to the session constructed from one options object, in
    which [errorOnUnmatchedPattern] is [false]. *)
Lemma resolver_builds_with_flag
    (env : Env) (path : option string) (options : Schema) (flat : bool)
    (ESLint : ESLintClass) :
  resolveESLintClass env flat = (inr ESLint, []) ->
  passesChecks path options flat ->
  exists o : ESLintOptions,
    resolveAndInstantiateESLint env path options flat
    = (inr (ESLint, construct ESLint o), [NewESLint o])
    /\ o !! "errorOnUnmatchedPattern" = Some (VBool false).
Proof.
  intros Hcls Hpass. unfold resolveAndInstantiateESLint.
  destruct flat; cbn [passesChecks negb andb] in *.
  - destruct Hpass as [Hname Hnone].
    apply name_check_false_iff in Hname.
    destruct (no_legacyOnlyOption _ Hnone) as (H1 & H2 & H3 & H4).
    rewrite andb_false_r, Hname, Hcls. cbn [bind]. rewrite H1, H2, H3, H4.
    destruct (JS.defined (noConfigLookup options)); by eexists.
  - rewrite Hpass, Hcls. by eexists.
Qed.

(** C10. Under both formats, a resolver run that succeeds has built exactly
    one options object, the one its session was constructed from, and that
    object has [errorOnUnmatchedPattern] set to [false]; a run that fails has
    built none. The resolver does succeed, with such an object, for every
    bag that passes its checks whenever the class is found. And with an
    engine that throws on unmatched patterns unless the flag is [false], a
    run of the handler on patterns that match no file does not end with
    an error of the engine: the lint pass returns no result, and the handler
    ends the run in its zero-result step, after asking about each
    pattern. *)
Theorem resolver_errorOnUnmatchedPattern_false (env : Env) :
  (forall (path : option string) (options : Schema) (flat : bool),
     match resolveAndInstantiateESLint env path options flat with
     | (inr (ESLint, eslint), trace) =>
         exists o : ESLintOptions,
           trace = [NewESLint o] /\ eslint = construct ESLint o
           /\ o !! "errorOnUnmatchedPattern" = Some (VBool false)
     | (inl _, trace) => trace = []
     end)
  /\ (forall (path : option string) (options : Schema) (flat : bool)
             (ESLint : ESLintClass),
        resolveESLintClass env flat = (inr ESLint, []) ->
        passesChecks path options flat ->
        exists o : ESLintOptions,
          resolveAndInstantiateESLint env path options flat
          = (inr (ESLint, construct ESLint o), [NewESLint o])
          /\ o !! "errorOnUnmatchedPattern" = Some (VBool false))
  /\ (forall (options : Schema) (context : BuilderContext)
             (ESLint : ESLintClass) (unmatched : list string -> Prop),
        resolveESLintClass env (useFlatConfig env context) = (inr ESLint, []) ->
        passesChecks (eslintConfigPath env options context) options
          (useFlatConfig env context) ->
        versionTooOld env (JS.split_dot <$> version ESLint) = false ->
        honoursErrorOnUnmatchedPattern ESLint unmatched ->
        unmatched (lintFilePatterns options) ->
        exists o : ESLintOptions,
          o !! "errorOnUnmatchedPattern" = Some (VBool false)
          /\ handler env options context
             = (inr (failure
                       (match ignoredPatternsOf (construct ESLint o)
                                (lintFilePatterns options) with
                        | [] => nothingToLintMessage
                        | ignored =>
                            allFilesIgnoredMessage
                              (map (fun pattern => "- '" +:+ pattern +:+ "'")
                                 ignored)
                        end)),
                opening env options context
                ++ [NewESLint o; LintFiles (lintFilePatterns options)]
                ++ map IsPathIgnored (lintFilePatterns options))).
Proof.
  split; [|split].
  - intros path options flat. unfold resolveAndInstantiateESLint.
    destruct (truthy (stats options) && negb flat); [done|].
    destruct (flat && truthy path && _); [done|].
    class_cases env flat; [|done].
    destruct flat; simpl.
    + destruct (JS.defined (useEslintrc options)); [done|].
      destruct (JS.defined (resolvePluginsRelativeTo options)); [done|].
      destruct (JS.defined (ignorePath options)); [done|].
      destruct (truthy (reportUnusedDisableDirectives options)); [done|].
      destruct (JS.defined (noConfigLookup options)); simpl;
        eexists; (split; [reflexivity|]); (split; [reflexivity|]); reflexivity.
    + eexists; (split; [reflexivity|]); (split; [reflexivity|]); reflexivity.
  - intros path options flat ESLint. apply resolver_builds_with_flag.
  - intros options context ESLint unmatched Hcls Hpass Hver Hengine Hunmatched.
    assert (Hpass' : passesChecks (eslintConfigPath env options context)
                       (withCacheLocation env options context)
                       (useFlatConfig env context)) by exact Hpass.
    destruct (resolver_builds_with_flag _ _ _ _ _ Hcls Hpass')
      as (o & Hres & Hflag).
    exists o. split; [exact Hflag|].
    pose proof (Hengine o _ Hunmatched Hflag) as Hlint.
    unfold handler.
    rewrite (lintRun_zero_results _ _ _ _ _ _ Hres Hver Hlint).
    cbn [try_catch ret]. rewrite app_nil_r. unfold failure.
    by destruct (ignoredPatternsOf _ _).
Qed.

(** A bag of the legacy format with several options set, the [stats] bag
    under the flat format, and a run in a workspace with an
    [eslint.config.js] whose pattern matches no file, with an engine that
    would throw if the flag were not [false]. *)
Lemma resolver_errorOnUnmatchedPattern_false_witness :
  (exists o : ESLintOptions,
     resolveAndInstantiateESLint Mock.env0 (Some "./.eslintrc.json")
       legacyBag false
     = (inr (Mock.eslint8 [], construct (Mock.eslint8 []) o), [NewESLint o])
     /\ o !! "errorOnUnmatchedPattern" = Some (VBool false))
  /\ (exists o : ESLintOptions,
        resolveAndInstantiateESLint Mock.env0 (Some "./eslint.config.js")
          (with_stats (Val true) Mock.options) true
        = (inr (Mock.eslint8 [], construct (Mock.eslint8 []) o), [NewESLint o])
        /\ o !! "errorOnUnmatchedPattern" = Some (VBool false))
  /\ (exists o : ESLintOptions,
        o !! "errorOnUnmatchedPattern" = Some (VBool false)
        /\ handler (Mock.env strictClass ["/ws/eslint.config.js"])
             (with_lintFilePatterns ["src/**/*.html"] emptyOptions)
             Mock.context
           = (inr (failure nothingToLintMessage),
              [Chdir "/ws"; NewESLint o; LintFiles ["src/**/*.html"];
               IsPathIgnored "src/**/*.html"])).
Proof.
  split; [|split].
  - apply (proj1 (proj2 (resolver_errorOnUnmatchedPattern_false Mock.env0)));
      reflexivity.
  - apply (proj1 (proj2 (resolver_errorOnUnmatchedPattern_false Mock.env0)));
      [reflexivity|]. split; [|by intros [|[|[|]]]].
    intros p [= <-] _. exists "eslint.config.js". split; [|reflexivity].
    unfold supportedFlatConfigNames. apply list_elem_of_here.
  - apply (proj2 (proj2 (resolver_errorOnUnmatchedPattern_false
                           (Mock.env strictClass ["/ws/eslint.config.js"])))
             (with_lintFilePatterns ["src/**/*.html"] emptyOptions)
             Mock.context strictClass (fun _ => True)).
    + reflexivity.
    + split; [by intros p [=]|by intros [|[|[|]]]].
    + reflexivity.
    + intros o patterns _ Hflag. cbn. by rewrite Hflag.
    + exact I.
Defined.

(** The lookup of [resolveESLintConfigPath] is the first existing file
    among those of [configCandidates]. *)
Lemma resolveESLintConfigPath_firstExisting (env : Env) (projectRoot : string) :
  resolveESLintConfigPath env projectRoot
  = firstExisting env projectRoot configCandidates.
Proof.
  unfold resolveESLintConfigPath, firstExisting, configCandidates.
  cbn [map]. rewrite !filter_cons, filter_nil.
  repeat (match goal with
          | |- context [existsSync env ?p] =>
              destruct (existsSync env p) eqn:?
          end;
          [by rewrite decide_True|rewrite decide_False by done]).
  reflexivity.
Qed.

(** C9, as the code has it. The lookup tries [.eslintrc.json] and then
    three flat configuration names, [eslint.config.js], [eslint.config.mjs]
    and [eslint.config.cjs], and returns the first of these files that
    exists in the root of the project, or null. It takes nothing but the
    root; and when the lint pass throws the type-information error, the
    handler prints the message with the explicit configuration path, or
    else with the result of this lookup in the root of the project (the empty
    string for null), or else with the name of the project, and returns a
    failure without error message, whichever format is in use. *)
Theorem configPath_for_typeInformation_error
    (env : Env) (options : Schema) (context : BuilderContext) :
  (forall projectRoot : string,
     resolveESLintConfigPath env projectRoot
     = firstExisting env projectRoot
         [".eslintrc.json"; "eslint.config.js"; "eslint.config.mjs";
          "eslint.config.cjs"])
  /\ (forall (ESLint : ESLintClass) (eslint : ESLintInstance)
             (setup : list event) (msg : string),
        resolvesTo env options context ESLint eslint setup ->
        versionTooOld env (JS.split_dot <$> version ESLint) = false ->
        lintFiles eslint (lintFilePatterns options) = inl (Error msg) ->
        JS.includes msg typeInformationMarker = true ->
        handler env options context
        = (inr {| success := false; error := None |},
           opening env options context ++ setup
           ++ [LintFiles (lintFilePatterns options);
               GetProjectMetadata (projectName context);
               ConsoleError
                 (typeInformationMessage (configShown env options context))])).
Proof.
  split; [exact (resolveESLintConfigPath_firstExisting env)|].
  intros ESLint eslint setup msg Hres Hver Hlint Hmsg.
  unfold resolvesTo in Hres.
  unfold handler, lintRun, opening. rewrite Hres.
  cbn [bind emit]. rewrite Hver. same_options.
  unfold call at 1. rewrite Hlint. cbn [try_catch bind ret]. rewrite Hmsg.
  unfold configShown.
  destruct (printInfo options);
    destruct (eslintConfigPath env options context) as [[|c p]|];
    destruct (projectMetadata_root context (projectName context))
      as [| |[|c' root]];
    rewrite <- ?resolveESLintConfigPath_firstExisting;
    cbn; by rewrite ?app_nil_r.
Qed.

(** A project whose root holds an [eslint.config.mjs] and an
    [eslint.config.cjs], linted by an engine that throws the
    type-information error. *)
Lemma configPath_for_typeInformation_error_witness :
  let cls :=
    Mock.class (Some "8.57.0")
      (inl (Error ("Error while loading rule: " +:+ typeInformationMarker)))
      (fun _ => false) in
  let env :=
    Mock.env cls ["apps/app/eslint.config.mjs"; "apps/app/eslint.config.cjs"] in
  let options := with_lintFilePatterns ["apps/app/src"] emptyOptions in
  fst (handler env options Mock.context)
  = inr {| success := false; error := None |}
  /\ last (snd (handler env options Mock.context))
     = Some (ConsoleError (typeInformationMessage "apps/app/eslint.config.mjs")).
Proof.
  intros cls env options.
  rewrite (proj2 (configPath_for_typeInformation_error env options Mock.context)
             _ _ _ _ eq_refl eq_refl eq_refl eq_refl).
  split; reflexivity.
Defined.

(** C9, as stated, fails on the number of flat configuration names: there
    are no four different names of flat configurations that the lookup
    finds when the file is alone in the root of the project. Only three
    are tried. *)
Lemma no_four_flat_config_names :
  ~ exists names : list string,
      length names = 4%nat /\ NoDup names
      /\ forall name, name ∈ names ->
           name ∈ supportedFlatConfigNames
           /\ resolveESLintConfigPath
                (Mock.env (Mock.eslint8 []) ["proj/" +:+ name]) "proj"
              = Some ("proj/" +:+ name).
Proof.
  intros (names & Hlen & Hnd & Hfound).
  assert (Hsub : names ⊆ ["eslint.config.js"; "eslint.config.mjs";
                          "eslint.config.cjs"]).
  { intros name Hin. destruct (Hfound name Hin) as [Hsup Hres].
    unfold supportedFlatConfigNames in Hsup.
    repeat (apply elem_of_cons in Hsup as [->|Hsup];
            [first [by_computation | by vm_compute in Hres]|]).
    by apply elem_of_nil in Hsup. }
  apply NoDup_submseteq in Hsub; [|done].
  apply submseteq_length in Hsub. cbn in Hsub. lia.
Qed.

(** ** The unit tests of the resolver *)

(** [should create the ESLint instance with the proper parameters]. *)
Example test_proper_parameters :
  Mock.calledWith
    (snd (resolveAndInstantiateESLint Mock.env0 (Some "./.eslintrc.json")
            Mock.options false))
  = Some {[ "overrideConfigFile" := VString "./.eslintrc.json";
            "fix" := VBool true;
            "cache" := VBool true;
            "cacheLocation" := VString "/root/cache";
            "cacheStrategy" := VString "content";
            "useEslintrc" := VBool true;
            "errorOnUnmatchedPattern" := VBool false;
            "rulePaths" := VStrings [] ]}.
Proof. by vm_compute. Qed.

(** [should create the ESLint instance with "useEslintrc" set to false]. *)
Example test_noEslintrc :
  exists o : ESLintOptions,
    Mock.calledWith
      (snd (resolveAndInstantiateESLint Mock.env0 None
              (with_noEslintrc (Val true) Mock.options) false))
    = Some o
    /\ o !! "useEslintrc" = Some (VBool false).
Proof. eexists. split; [by vm_compute|reflexivity]. Qed.

(** [should create the ESLint instance with "rulePaths" set to the given
    value for rulesdir]. *)
Example test_rulesdir :
  exists o : ESLintOptions,
    Mock.calledWith
      (snd (resolveAndInstantiateESLint Mock.env0 None
              (with_rulesdir (Val ["./some-rules"; "../some-more-rules"])
                 Mock.options) false))
    = Some o
    /\ o !! "rulePaths" = Some (VStrings ["./some-rules"; "../some-more-rules"]).
Proof. eexists. split; [by vm_compute|reflexivity]. Qed.

(** [should create the ESLint instance with "stats" set to true when using
    flat config]. *)
Example test_stats_flat :
  Mock.calledWith
    (snd (resolveAndInstantiateESLint Mock.env0 (Some "./eslint.config.js")
            (with_stats (Val true) emptyOptions) true))
  = Some {[ "cache" := VBool false;
            "errorOnUnmatchedPattern" := VBool false;
            "fix" := VBool false;
            "overrideConfigFile" := VString "./eslint.config.js";
            "stats" := VBool true ]}.
Proof. by vm_compute. Qed.

(** [should not throw if an eslint.config.* file is used with ESLint Flat
    Config], for the six names. *)
Example test_flat_config_names :
  Forall (fun name =>
            exists r, fst (resolveAndInstantiateESLint Mock.env0
                             (Some ("./" +:+ name)) emptyOptions true)
                      = inr r)
    supportedFlatConfigNames.
Proof. repeat constructor; by eexists. Qed.

(** ** Scenarios of the lint run *)

(** Five warnings against a limit of three: the run fails and says so. *)
Example five_warnings_limit_three :
  let r := scenario [Mock.result "a.ts" 0 5] (with_maxWarnings 3 stylish) in
  fst r = inr {| success := false; error := None |}
  /\ last (snd r)
     = Some (ConsoleError
               "Found 5 warnings, which exceeds your configured limit (3). Either increase your maxWarnings limit or fix some of the lint warnings.").
Proof. by vm_compute. Qed.

(** Under [quiet] a file with warnings only is left out of the report, and
    its warnings still count against the limit. *)
Example quiet_warnings_still_count :
  let r := scenario [Mock.result "a.ts" 0 5]
             (with_quiet (Val true) (with_maxWarnings 3 stylish)) in
  fst r = inr {| success := false; error := None |}
  /\ omap (fun ev => match ev with Format view => Some view | _ => None end)
       (snd r)
     = [[]].
Proof. by vm_compute. Qed.

(** [force] makes a run with errors succeed. *)
Example force_overrides_errors :
  fst (scenario [Mock.result "a.ts" 2 0] stylish)
  = inr {| success := false; error := None |}
  /\ fst (scenario [Mock.result "a.ts" 2 0] (with_force (Val true) stylish))
     = inr {| success := true; error := None |}.
Proof. by vm_compute. Qed.

(** No result and no pattern ignored: nothing to lint. *)
Example nothing_to_lint :
  fst (scenario [] stylish) = inr (failure nothingToLintMessage).
Proof. by vm_compute. Qed.
